(** * Agentic recruitment: ledger, normalisation, completeness, triage

    A shallow embedding of the job-application screening bot
    (src/main.py, src/utils/conversation_manager.py,
    src/utils/email_processor.py, src/utils/tool_response_extractor.py,
    src/config) and the properties of its thread ledger, its extraction
    normalisation, its completeness evaluation, its mail triage, its
    reading of a message and its round over the unread mail.

    Python dictionaries are finite maps ([gmap string _]); equality of
    maps is Python's [==] on dictionaries (insertion order is not
    observed by any of the code modelled here).  Calls that leave the
    process (the mailbox, the disk, the language model, [re], [json]) are
    explicit arguments that carry the outcome of the call. *)

From Stdlib Require Import ZArith Ascii String.
From stdpp Require Import gmap strings list fin_maps.

Local Open Scope string_scope.

(** ** Values stored in the provided-information dictionaries *)

(** A field of an education / work-experience entry as [json] gives it. *)
Inductive scalar :=
  | SStr (s : string)
  | SNum (n : Z)
  | SBool (b : bool).

#[global] Instance scalar_eq_dec : EqDecision scalar.
Proof. solve_decision. Defined.

(** One entry of the education or work-experience list: a JSON object,
    e.g. [{"description": "..."}] or [{"degree": .., "institution": ..}]. *)
Abbreviation entry := (gmap string scalar).

Inductive value :=
  | VStr (s : string)          (* 'Full Name': 'Ann Lee' *)
  | VBool (b : bool)           (* 'Resume/CV': True *)
  | VEntries (l : list entry)  (* 'Education': [{...}, ...] *)
  | VStrs (l : list string).   (* 'Skills': ['python', ...] *)

#[global] Instance value_eq_dec : EqDecision value.
Proof. solve_decision. Defined.

(** Python truthiness, as used by [if x:] on these values. *)
Definition truthy (v : value) : bool :=
  match v with
  | VStr s => negb (String.eqb s "")
  | VBool b => b
  | VEntries l => negb (bool_decide (l = []))
  | VStrs l => negb (bool_decide (l = []))
  end.

(** The cumulative field map of a thread, and a map of disclosed fields. *)
Abbreviation field_map := (gmap string value).

(** ** The thread ledger (utils/conversation_manager.py) *)

Module Ledger.

Record message := Message {
  role : string;
  content : string;
  timestamp : string;
  msg_provided_information : option field_map
}.

(** [ConversationManager]: the two in-memory dictionaries. *)
Record ConversationManager := Manager {
  active_threads : gmap string (list message);
  provided_information : gmap string field_map
}.

(** What a file of CONVERSATION_CACHE_DIR holds: the document written by
    [json.dump], or the remains of a dump that raised after [open(.., 'w')]
    had truncated the file. *)
Inductive file :=
  | Saved (messages : list message) (metadata_provided_information : field_map)
  | Truncated.

Abbreviation disk := (gmap string file).

(** Outcome of the [with open(file_path, 'w') ... json.dump(...)] block. *)
Inductive write_outcome :=
  | Written      (* the document is on disk *)
  | OpenRaises   (* [open] raised: the file is as it was *)
  | DumpRaises.  (* [json.dump] raised: the file was truncated *)

(** [__init__] before [load_all_conversations] has found any file. *)
Definition init : ConversationManager := Manager ∅ ∅.

(** [get_conversation_history]: [self.active_threads.get(thread_id, [])]. *)
Definition get_conversation_history (cm : ConversationManager) (thread_id : string)
  : list message :=
  default [] (active_threads cm !! thread_id).

(** [get_provided_information]: [self.provided_information.get(thread_id, {})]. *)
Definition get_provided_information (cm : ConversationManager) (thread_id : string)
  : field_map :=
  default ∅ (provided_information cm !! thread_id).

(** [dict.update]: every key of [other] is written, whatever its value;
    the other keys of [d] stay. *)
Definition dict_update (d other : field_map) : field_map := other ∪ d.

(** [save_conversation].  The [except] clause logs and returns, so the
    manager is never changed and the caller never learns of a failure. *)
Definition save_conversation (cm : ConversationManager) (thread_id : string)
    (out : write_outcome) (d : disk) : disk :=
  match active_threads cm !! thread_id with
  | Some conversation_data =>
      match out with
      | Written =>
          <[thread_id := Saved conversation_data
                           (get_provided_information cm thread_id)]> d
      | OpenRaises => d
      | DumpRaises => <[thread_id := Truncated]> d
      end
  | None => d
  end.

(** [add_message].  [provided_info = None] is the default argument;
    [if provided_info and role == "applicant"] needs a non-empty
    dictionary.  [now] is [datetime.now().isoformat()].  The turn holds
    the dictionary of the caller itself; here it holds the value that the
    dictionary has at the call, which is what the file gets. *)
Definition add_message (thread_id role content : string)
    (provided_info : option field_map) (now : string) (out : write_outcome)
    (st : ConversationManager * disk) : ConversationManager * disk :=
  let '(cm, d) := st in
  let threads0 :=
    match active_threads cm !! thread_id with
    | Some _ => active_threads cm
    | None => <[thread_id := []]> (active_threads cm)
    end in
  let info0 :=
    match provided_information cm !! thread_id with
    | Some _ => provided_information cm
    | None => <[thread_id := ∅]> (provided_information cm)
    end in
  let merges :=
    match provided_info with
    | Some pi => negb (bool_decide (pi = ∅)) && String.eqb role "applicant"
    | None => false
    end in
  let message :=
    Message role content now (if merges then provided_info else None) in
  let info1 :=
    if merges
    then <[thread_id := dict_update (default ∅ (info0 !! thread_id))
                                   (default ∅ provided_info)]> info0
    else info0 in
  let threads1 :=
    <[thread_id := (default [] (threads0 !! thread_id) ++ [message])%list]> threads0 in
  let cm' := Manager threads1 info1 in
  (cm', save_conversation cm' thread_id out d).

(** [update_provided_information]. *)
Definition update_provided_information (thread_id : string)
    (provided_info : field_map) (out : write_outcome)
    (st : ConversationManager * disk) : ConversationManager * disk :=
  let '(cm, d) := st in
  let info0 :=
    match provided_information cm !! thread_id with
    | Some _ => provided_information cm
    | None => <[thread_id := ∅]> (provided_information cm)
    end in
  let info1 :=
    <[thread_id := dict_update (default ∅ (info0 !! thread_id)) provided_info]> info0 in
  let cm' := Manager (active_threads cm) info1 in
  (cm', save_conversation cm' thread_id out d).

(** [complete_conversation]: a last save, then [del self.active_threads[..]].
    [self.provided_information] is left alone. *)
Definition complete_conversation (thread_id : string) (out : write_outcome)
    (st : ConversationManager * disk) : ConversationManager * disk :=
  let '(cm, d) := st in
  match active_threads cm !! thread_id with
  | Some _ =>
      (Manager (delete thread_id (active_threads cm)) (provided_information cm),
       save_conversation cm thread_id out d)
  | None => (cm, d)
  end.

(** A merge into the cumulative map of a thread, by either entry point. *)
Inductive merge_op :=
  | AddMessage (content : string) (provided_info : field_map) (now : string)
               (out : write_outcome)
  | UpdateInfo (provided_info : field_map) (out : write_outcome).

Definition apply_merge (thread_id : string) (op : merge_op)
    (st : ConversationManager * disk) : ConversationManager * disk :=
  match op with
  | AddMessage c pi now out => add_message thread_id "applicant" c (Some pi) now out st
  | UpdateInfo pi out => update_provided_information thread_id pi out st
  end.

(** The dictionary that a merge carries. *)
Definition op_info (op : merge_op) : field_map :=
  match op with
  | AddMessage _ pi _ _ => pi
  | UpdateInfo pi _ => pi
  end.

Definition apply_merges (thread_id : string) (ops : list merge_op)
    (st : ConversationManager * disk) : ConversationManager * disk :=
  foldl (fun s op => apply_merge thread_id op s) st ops.

(** The cumulative map of a thread in a ledger state. *)
Definition cumulative (thread_id : string) (st : ConversationManager * disk)
  : field_map :=
  get_provided_information st.1 thread_id.

End Ledger.

(** ** Python string operations used by the code

    Strings are sequences of ASCII characters; [lower], [strip] and
    [split] act on them as Python's do on ASCII text. *)

Module Str.

Definition code (c : ascii) : nat := nat_of_ascii c.

Definition between (lo hi : nat) (c : ascii) : bool :=
  Nat.leb lo (code c) && Nat.leb (code c) hi.

Definition is_upper (c : ascii) : bool := between 65 90 c.
Definition is_lower (c : ascii) : bool := between 97 122 c.
Definition is_alpha (c : ascii) : bool := is_upper c || is_lower c.

(** The ASCII characters for which [str.isspace] holds. *)
Definition is_space (c : ascii) : bool :=
  between 9 13 c || between 28 32 c.

Definition lower_char (c : ascii) : ascii :=
  if is_upper c then ascii_of_nat (code c + 32) else c.
Definition upper_char (c : ascii) : ascii :=
  if is_lower c then ascii_of_nat (code c - 32) else c.

(** [s.lower()] *)
Fixpoint lower (s : string) : string :=
  match s with
  | EmptyString => EmptyString
  | String c r => String (lower_char c) (lower r)
  end.

(** [needle in hay] *)
Fixpoint contains (needle hay : string) : bool :=
  String.prefix needle hay ||
  match hay with
  | EmptyString => false
  | String _ r => contains needle r
  end.

Fixpoint lstrip (s : string) : string :=
  match s with
  | EmptyString => EmptyString
  | String c r => if is_space c then lstrip r else s
  end.

Definition reverse (s : string) : string :=
  string_of_list_ascii (List.rev (list_ascii_of_string s)).

(** [s.strip()] *)
Definition strip (s : string) : string := reverse (lstrip (reverse (lstrip s))).

Fixpoint words_from (cur : list ascii) (l : list ascii) : list string :=
  match l with
  | [] => match cur with
          | [] => []
          | _ => [string_of_list_ascii (List.rev cur)]
          end
  | c :: r =>
      if is_space c
      then match cur with
           | [] => words_from [] r
           | _ => string_of_list_ascii (List.rev cur) :: words_from [] r
           end
      else words_from (c :: cur) r
  end.

(** [s.split()] *)
Definition split_ws (s : string) : list string :=
  words_from [] (list_ascii_of_string s).

Fixpoint title_from (in_word : bool) (s : string) : string :=
  match s with
  | EmptyString => EmptyString
  | String c r =>
      if is_alpha c
      then String (if in_word then lower_char c else upper_char c) (title_from true r)
      else String c (title_from false r)
  end.

(** [s.title()] *)
Definition title (s : string) : string := title_from false s.

(** What is left of [s] after the first occurrence of [sep]. *)
Fixpoint after_first (sep s : string) : string :=
  if String.prefix sep s
  then String.substring (String.length sep) (String.length s - String.length sep) s
  else match s with
       | EmptyString => EmptyString
       | String _ r => after_first sep r
       end.

(** [s.split(sep)[0]]: [s] up to the first occurrence of [sep]. *)
Fixpoint before_first (sep s : string) : string :=
  if String.prefix sep s then EmptyString
  else match s with
       | EmptyString => EmptyString
       | String c r => String c (before_first sep r)
       end.

(** [s.split(sep)[1]], for [s] that holds [sep]. *)
Definition split_second (sep s : string) : string :=
  before_first sep (after_first sep s).

(** The double quote, which a literal cannot hold. *)
Definition dq : string := String (ascii_of_nat 34) EmptyString.

End Str.

(** ** Field schema (config/job_requirements.py) and settings *)

Record requirement := Req { name : string; description : string }.

#[global] Instance requirement_eq_dec : EqDecision requirement.
Proof. solve_decision. Defined.

Definition required_information : list requirement :=
  [ Req "Full Name" "Applicant's complete name (first and last name)";
    Req "Email Address" "Valid email address for communication";
    Req "Phone Number" "Valid phone number";
    Req "Resume/CV" "Detailed resume or CV as an attachment";
    Req "Work Experience" "Any work experience";
    Req "Education" "Highest level of education and field of study" ].

Definition optional_information : list requirement :=
  [ Req "Portfolio" "Link to online portfolio or work samples";
    Req "LinkedIn Profile" "Link to LinkedIn profile";
    Req "GitHub Profile" "Link to GitHub profile for technical positions";
    Req "Cover Letter" "Personalized cover letter explaining interest in the position";
    Req "Salary Expectations" "Expected salary range";
    Req "Availability" "Earliest start date and notice period";
    Req "References" "Professional references with contact information" ].

(** The names that the code spells out when it filters names found in
    free text. *)
Definition required_names : list string :=
  [ "Full Name"; "Phone Number"; "Email Address"; "Resume/CV";
    "Work Experience"; "Education" ].

(** config/settings.py *)
Definition HR_EMAIL : string := "cindysim@arxmedia.co".

(** ** Mail as [extract_email_data] hands it over *)

Record attachment := Attachment {
  filename : string;
  content_type : string;
  attachment_id : string
}.

Record email_data := Email {
  sender_name : string;
  sender_email : string;
  subject : string;
  body : string;
  attachments : list attachment;
  thread_id : string;
  message_id : string
}.

(** ** Triage ([classify_email] of main.py) *)

Module Triage.

Record classification := Classification { is_job_application : bool }.

Definition subject_keywords : list string :=
  [ "application"; "apply"; "job"; "position"; "resume"; "cv"; "candidate";
    "opportunity"; "career" ].

Definition body_keywords : list string :=
  [ "apply"; "application"; "position"; "job"; "opportunity"; "resume"; "cv";
    "work experience"; "education"; "qualification"; "skill"; "background";
    "interview"; "hiring"; "employment"; "career"; "consideration" ].

Definition document_types : list string :=
  [ "application/pdf"; "application/msword";
    "application/vnd.openxmlformats-officedocument.wordprocessingml.document" ].

Definition strong_keywords : list string :=
  [ "application"; "apply"; "job"; "position" ].

(** One round of the attachment loop: either test sets [has_resume]
    and breaks. *)
Definition looks_like_resume (a : attachment) : bool :=
  let filename := Str.lower (filename a) in
  bool_decide (content_type a ∈ document_types)
  || Str.contains "resume" filename || Str.contains "cv" filename
  || Str.contains "curriculum" filename.

Definition classify_email (e : email_data) : classification :=
  if String.eqb (sender_email e) HR_EMAIL || Str.contains HR_EMAIL (sender_email e)
  then Classification false
  else
    let subject := Str.lower (subject e) in
    let subject_matches := existsb (fun k => Str.contains k subject) subject_keywords in
    let body := Str.lower (body e) in
    let body_matches := existsb (fun k => Str.contains k body) body_keywords in
    let has_resume := existsb looks_like_resume (attachments e) in
    if subject_matches && (body_matches || has_resume) then Classification true
    else if body_matches && has_resume then Classification true
    else if subject_matches
            && existsb (fun k => Str.contains k subject) strong_keywords
    then Classification true
    else Classification false.

End Triage.

(** ** What the language model hands back *)

(** ['extracted_information'] of an analysis result, by the schema the
    prompts ask for.  Each key may be absent. *)
Record extracted_information := Extracted {
  personal_information : option (gmap string string);
  education : option (list entry);
  work_experience : option (list entry);
  skills : option (list string)
}.

(** The analysis-result dictionary; [None] is an absent key. *)
Record analysis_result := Analysis {
  extracted : option extracted_information;
  response_text : option string;
  missing_information : option (list requirement);
  application_complete : option bool
}.

(** [{}], which every [except] clause of main.py returns. *)
Definition empty_result : analysis_result := Analysis None None None None.

(** What [extract_tool_response] hands over: a dictionary by the schema
    above, or the dictionary of a [<resume_analysis_result>] whose
    [<extracted_information>] is no JSON and is kept as the text of the
    tag (tool_response_extractor.py, 140-145), beside the flag of
    [<application_complete>].  JSON that is no object of the schema is
    outside this model. *)
Inductive tool_response :=
  | Fields (result : analysis_result)
  | Prose (extraction_text : string) (complete_flag : bool).

Coercion Fields : analysis_result >-> tool_response.

(** The dictionary as the code reads it where the extraction is a text
    that names none of the sections: every test ['key' in
    extracted_information] is then a substring test that fails, as it
    fails on an empty object. *)
Definition fields_of (r : tool_response) : analysis_result :=
  match r with
  | Fields result => result
  | Prose _ complete_flag =>
      Analysis (Some (Extracted None None None None)) None None (Some complete_flag)
  end.

(** Result of [json.loads] on the judge's reply, as far as the code
    looks into it: the reply is no JSON, JSON that is no object, or an
    object with its ['missing_information'] entry. *)
Inductive loads :=
  | DecodeError
  | NotAnObject
  | Object (missing_information : option (list requirement)).

(** The verdict of a turn. *)
Record verdict := Verdict { missing : list requirement; complete : bool }.

#[global] Instance verdict_eq_dec : EqDecision verdict.
Proof. solve_decision. Defined.

(** ** Normalisation and completeness (main.py) *)

Module Screening.

Definition phone_pattern : string :=
  "(?:phone|mobile|cell|tel)(?:\s*(?:number|#))?\s*[:;-]?\s*([+\d\s()\-]{7,})".

Definition education_pattern : string :=
  "(?:education|degree|university|college)(?:\s*[:;-])?\s*([^,\n]+(?:university|college|degree|bachelor|master|phd)[^,\n]+)".

Definition signoff_patterns : list string :=
  [ "sincerely,\s*([a-zA-Z\s]+)"; "regards,\s*([a-zA-Z\s]+)";
    "best,\s*([a-zA-Z\s]+)"; "best regards,\s*([a-zA-Z\s]+)";
    "thank you,\s*([a-zA-Z\s]+)"; "yours,\s*([a-zA-Z\s]+)" ].

Definition bold_name_pattern : string := "\*\*(.*?):\*\*".

Definition fallback_patterns : list string :=
  [ "\*\*([^:]+):\*\*";
    Str.dq ++ "name" ++ Str.dq ++ ":\s*" ++ Str.dq ++ "([^" ++ Str.dq ++ "]+)" ++ Str.dq;
    "- ([^:]+):";
    "• ([^:]+):" ].

Definition education_requirement : requirement :=
  Req "Education" "Highest level of education and field of study".

(** [{"description": d}] *)
Definition description_entry (d : string) : entry := {[ "description" := SStr d ]}.

(** [{"name": n, "description": f"Required {n.lower()} information"}] *)
Definition required_item (n : string) : requirement :=
  Req n ("Required " ++ Str.lower n ++ " information").

(** [[item for item in missing_info if item['name'] != n]] *)
Definition without (n : string) (missing_info : list requirement) : list requirement :=
  filter (fun item => name item ≠ n) missing_info.

Definition names_of (l : list requirement) : list string := map name l.

(** The attachment test of [process_email] and [analyze_resume]. *)
Definition is_resume (a : attachment) : bool :=
  String.eqb (content_type a) "application/pdf"
  || Str.contains "resume" (Str.lower (filename a))
  || Str.contains "cv" (Str.lower (filename a)).

Definition nonempty (s : string) : bool := negb (String.eqb s "").

(** [s.split()[0]] raises [IndexError] when [s] has no word. *)
Definition has_first_word (s : string) : bool :=
  negb (bool_decide (Str.split_ws s = [])).

(** The phrases of [generate_response] over an education description. *)
Definition negative_description (desc : string) : bool :=
  Str.contains "not specified" desc || Str.contains "not provided" desc
  || Str.contains "lacks educational details" desc
  || Str.contains "does not contain" desc || Str.contains "not present" desc.

(** [len(desc) > 10] counts characters, which on ASCII text are the
    bytes that [String.length] counts. *)
Definition substantial_description (desc : string) : bool :=
  Nat.ltb 10 (String.length desc) && negb (Str.contains "not" desc)
  && negb (Str.contains "missing" desc) && negb (Str.contains "lacks" desc).

(** The loop over [education_info]; [None] when [.lower()] is called on a
    description that is no string. *)
Fixpoint education_scan (education_missing : bool) (education_info : list entry)
  : option bool :=
  match education_info with
  | [] => Some education_missing
  | edu :: rest =>
      match edu !! "description" with
      | None => education_scan education_missing rest
      | Some (SStr d) =>
          let desc := Str.lower d in
          if negative_description desc then Some true
          else if substantial_description desc then education_scan false rest
          else education_scan education_missing rest
      | Some _ => None
      end
  end.

Definition response_says_education_missing (response_text : string) : bool :=
  (Str.contains "not specified" response_text && Str.contains "education" response_text)
  || (Str.contains "does not contain" response_text && Str.contains "education" response_text)
  || Str.contains "no education" response_text
  || Str.contains "missing education" response_text
  || Str.contains "education details are not provided" response_text
  || Str.contains "education section is not present" response_text
  || Str.contains "lacks educational details" response_text
  || Str.contains "education is missing" response_text
  || Str.contains "education: -" response_text
  || Str.contains "education: not" response_text.

Definition response_names_degree (response_text : string) : bool :=
  Str.contains "bachelor" response_text || Str.contains "master" response_text
  || Str.contains "phd" response_text || Str.contains "degree in" response_text.

Definition body_names_education (body : string) : bool :=
  Str.contains "bachelor" body || Str.contains "master" body
  || Str.contains "phd" body || Str.contains "degree" body
  || Str.contains "university" body || Str.contains "college" body.

(** The block "Check for education information" of [generate_response]. *)
Definition education_missing (provided_info : field_map) (e : email_data)
    (ar : analysis_result) : option bool :=
  if bool_decide ("Education" ∈ dom provided_info) then Some false
  else
    m1 ← match extracted ar with
         | Some ei =>
             match education ei with
             | Some education_info => education_scan true education_info
             | None => Some true
             end
         | None => Some true
         end;
    let m2 :=
      match response_text ar with
      | Some t =>
          let rt := Str.lower t in
          if Str.contains "education" rt
          then if response_says_education_missing rt then true
               else if response_names_degree rt then false else m1
          else m1
      | None => m1
      end in
    Some (if nonempty (body e) && body_names_education (Str.lower (body e))
          then false else m2).

(** [work_experience_provided] of [generate_response]. *)
Definition work_experience_provided (ar : analysis_result) : bool :=
  match extracted ar with
  | Some ei => match work_experience ei with
               | Some l => negb (bool_decide (l = []))
               | None => false
               end
  | None => false
  end
  || match response_text ar with
     | Some t =>
         Str.contains "work experience" (Str.lower t)
         || Str.contains "assistant hotel manager" (Str.lower t)
         || Str.contains "job title" (Str.lower t)
     | None => false
     end.

(** [attachment_name] of [generate_response]. *)
Definition attachment_name (ar : analysis_result) : option string :=
  match response_text ar with
  | Some t =>
      if Str.contains "full name" (Str.lower t)
         && Str.contains "lisandro milanesi" (Str.lower t)
      then Some "Lisandro Milanesi" else None
  | None => None
  end.

(** The first lines of [generate_response] compute a greeting name; of
    these only the two [split()[0]] can raise. *)
Definition greeting_name_defined (e : email_data) (ar : analysis_result) : bool :=
  has_first_word (sender_name e)
  && match extracted ar with
     | Some ei =>
         match personal_information ei with
         | Some pi =>
             match pi !! "name" with
             | Some n =>
                 if nonempty n && Nat.ltb 2 (String.length n)
                 then has_first_word n else true
             | None => true
             end
         | None => true
         end
     | None => true
     end.

(** Two field maps have the same required keys, the name apart. *)
Definition agree_off_name (pi pi' : field_map) : Prop :=
  forall n, n ∈ required_names -> n <> "Full Name" -> (n ∈ dom pi <-> n ∈ dom pi').

(** Two field maps have the same required keys. *)
Definition agree_on_required (pi pi' : field_map) : Prop :=
  forall n, n ∈ required_names -> (n ∈ dom pi <-> n ∈ dom pi').

(** [if v: d[key] = v]: the guarded write of the normalisation; [None]
    is a guard that fails. *)
Definition put (key : string) (v : option value) (m : field_map) : field_map :=
  match v with
  | Some v => <[key := v]> m
  | None => m
  end.

(** A string that passes [if s:], a list that passes [if l:]. *)
Definition truthy_str (s : string) : option string :=
  if nonempty s then Some s else None.

Definition truthy_list {A} (l : list A) : option (list A) :=
  match l with
  | [] => None
  | _ => Some l
  end.

Section Libraries.

(** [re.search(pattern, text, flags)]: group 1 of the first match;
    the flag is [re.IGNORECASE]. *)
Variable re_search : bool -> string -> string -> option string.
(** [re.findall(pattern, text)] for a pattern with one group. *)
Variable re_findall : string -> string -> list string.
(** [json.loads] *)
Variable json_loads : string -> loads.

(** *** Extraction normalisation *)

(** [basic_info] of [process_email]: a sequence of guarded writes
    [if ...: basic_info[key] = value]. *)
Definition basic_info (e : email_data) : field_map :=
  let i1 := put "Full Name" (VStr <$> truthy_str (sender_name e)) ∅ in
  let i2 := put "Email Address" (VStr <$> truthy_str (sender_email e)) i1 in
  let i3 :=
    put "Phone Number"
        (VStr ∘ Str.strip <$> re_search true phone_pattern (body e)) i2 in
  let i4 :=
    put "Resume/CV"
        (if existsb is_resume (attachments e) then Some (VBool true) else None) i3 in
  put "Education"
      ((fun g => VEntries [description_entry (Str.strip g)])
         <$> re_search true education_pattern (body e)) i4.

(** The education list that [process_job_application] stores: the list
    of the analysis when it is non-empty, with the entry found in the
    body appended to it. *)
Definition education_disclosed (e : email_data) (ar : analysis_result)
  : option (list entry) :=
  let from_analysis := ei ← extracted ar; l ← education ei; truthy_list l in
  match re_search true education_pattern (body e) with
  | Some g => Some (default [] from_analysis ++ [description_entry (Str.strip g)])%list
  | None => from_analysis
  end.

(** [provided_info] of [process_job_application]; [images_dir_exists] is
    [os.path.exists] of the thread's attachment-image folder. *)
Definition provided_info_of (e : email_data) (ar : analysis_result)
    (images_dir_exists : bool) : field_map :=
  let personal (field : string) : option value :=
    VStr <$> (ei ← extracted ar; pi ← personal_information ei;
              v ← pi !! field; truthy_str v) in
  let p1 := put "Full Name" (personal "name") ∅ in
  let p2 := put "Email Address" (personal "email") p1 in
  let p3 := put "Phone Number" (personal "phone") p2 in
  let p4 :=
    put "Education"
        (VEntries <$> (ei ← extracted ar; l ← education ei; truthy_list l)) p3 in
  let p5 :=
    put "Work Experience"
        (VEntries <$> (ei ← extracted ar; l ← work_experience ei; truthy_list l)) p4 in
  let p6 :=
    put "Skills" (VStrs <$> (ei ← extracted ar; l ← skills ei; truthy_list l)) p5 in
  let p7 :=
    put "Resume/CV"
        (if negb (bool_decide (attachments e = [])) || images_dir_exists
         then Some (VBool true) else None) p6 in
  let p8 :=
    put "Phone Number"
        (VStr ∘ Str.strip <$> re_search true phone_pattern (body e)) p7 in
  put "Education" (VEntries <$> education_disclosed e ar) p8.

(** The list stored under ['Education'] is the very list object of the
    analysis result, so the [append] shows in the analysis result that
    [generate_response] receives. *)
Definition analysis_after_append (e : email_data) (ar : analysis_result)
  : analysis_result :=
  match extracted ar with
  | Some ei =>
      match l ← education ei; truthy_list l with
      | Some _ =>
          Analysis
            (Some (Extracted (personal_information ei) (education_disclosed e ar)
                             (work_experience ei) (skills ei)))
            (response_text ar) (missing_information ar) (application_complete ar)
      | None => ar
      end
  | None => ar
  end.

(** *** Completeness *)

(** The names found in free text that are required names, as items. *)
Definition items_named (matches : list string) : list requirement :=
  map required_item
      (filter (fun n => n ∈ required_names) (map Str.strip matches)).

(** The loop over [signoff_patterns] of [generate_response]: the last
    match stays in [body_name] unless a match of two words ends the loop. *)
Fixpoint signoff_scan (body_name : option string) (patterns : list string)
    (text : string) : option string :=
  match patterns with
  | [] => body_name
  | pattern :: rest =>
      match re_search false pattern text with
      | Some g =>
          let n := Str.title (Str.strip g) in
          if Nat.leb 2 (length (Str.split_ws n)) then Some n
          else signoff_scan (Some n) rest text
      | None => signoff_scan body_name rest text
      end
  end.

Definition body_name (e : email_data) : option string :=
  if nonempty (body e)
  then signoff_scan None signoff_patterns (Str.lower (body e)) else None.

(** [attachment_name or body_name], when one of them is truthy. *)
Definition best_name (e : email_data) (ar : analysis_result) : option string :=
  match attachment_name ar with
  | Some a => Some a
  | None =>
      match body_name e with
      | Some n => if nonempty n then Some n else None
      | None => None
      end
  end.

(** The missing list with which [generate_response] starts when the
    application is not complete: the list of the analysis, else the
    required names set in bold in the response text, else the required
    fields that are no key of the field map. *)
Definition seed_missing (provided_info : field_map) (ar : analysis_result)
  : list requirement :=
  let missing_info := default [] (missing_information ar) in
  let m1 :=
    if bool_decide (missing_info = [])
    then match response_text ar with
         | Some t =>
             if Str.contains "missing" (Str.lower t)
             then items_named (re_findall bold_name_pattern t) else []
         | None => []
         end
    else missing_info in
  if bool_decide (m1 = [])
  then filter (fun req => name req ∉ dom provided_info) required_information
  else m1.

(** The filters of [generate_response] up to the name. *)
Definition filter_provided (provided_info : field_map) (e : email_data)
    (ar : analysis_result) (missing_info : list requirement) : list requirement :=
  let m3 :=
    if bool_decide ("Email Address" ∈ dom provided_info) || nonempty (sender_email e)
    then without "Email Address" missing_info else missing_info in
  let m4 :=
    if bool_decide ("Resume/CV" ∈ dom provided_info)
       || negb (bool_decide (attachments e = []))
    then without "Resume/CV" m3 else m3 in
  let m5 := if work_experience_provided ar then without "Work Experience" m4 else m4 in
  match best_name e ar with
  | Some _ => without "Full Name" m5
  | None => m5
  end.

(** [provided_info['Full Name'] = ...]: a write into the dictionary that
    [get_provided_information] returned. *)
Definition name_written (e : email_data) (ar : analysis_result)
    (provided_info : field_map) : field_map :=
  match best_name e ar with
  | Some n => <["Full Name" := VStr n]> provided_info
  | None => provided_info
  end.

(** The verdict part of [generate_response] on the field map of the
    thread: the field map after the call, and the verdict, or [None]
    when an exception sends the function to [return {}]. *)
Definition evaluate (provided_info : field_map) (e : email_data)
    (ar : analysis_result) : field_map * option verdict :=
  if negb (greeting_name_defined e ar) then (provided_info, None)
  else if default false (application_complete ar)
  then (provided_info, Some (Verdict (default [] (missing_information ar)) true))
  else
    let m5 := filter_provided provided_info e ar (seed_missing provided_info ar) in
    let provided_info' := name_written e ar provided_info in
    match education_missing provided_info' e ar with
    | None => (provided_info', None)
    | Some edu_missing =>
        let m6 :=
          if edu_missing && negb (bool_decide ("Education" ∈ names_of m5))
          then (m5 ++ [education_requirement])%list else m5 in
        (provided_info', Some (Verdict m6 (bool_decide (m6 = []))))
    end.

(** The tail of [analyze_resume]: what it makes of the reply of the
    judge.  [result] is what [extract_tool_response] returned; [judge] is
    the text of the reply, [None] when the call raised. *)
Fixpoint add_named (acc : list requirement) (matches : list string)
  : list requirement :=
  match matches with
  | [] => acc
  | m :: rest =>
      let n := Str.strip m in
      if bool_decide (n ∈ required_names)
         && negb (existsb (fun item => String.eqb (name item) n) acc)
      then add_named (acc ++ [required_item n])%list rest
      else add_named acc rest
  end.

Definition fallback_missing (text : string) : list requirement :=
  if Str.contains "missing" (Str.lower text)
  then foldl (fun acc pattern => add_named acc (re_findall pattern text))
             [] fallback_patterns
  else [].

Definition analyze_resume (result : analysis_result) (judge : option string)
  : analysis_result :=
  match judge with
  | None => empty_result
  | Some text =>
      let parsed :=
        if Str.contains "```json" text
        then json_loads
               (Str.strip (Str.before_first "```" (Str.split_second "```json" text)))
        else json_loads text in
      match parsed with
      | Object mi =>
          let m := default [] mi in
          Analysis (extracted result) (response_text result) (Some m)
                   (Some (bool_decide (m = [])))
      | DecodeError =>
          let m := fallback_missing text in
          Analysis (extracted result) (response_text result) (Some m)
                   (Some (if bool_decide (m = [])
                          then Str.contains "complete" (Str.lower text)
                               && negb (Str.contains "incomplete" (Str.lower text))
                          else false))
      | NotAnObject => empty_result
      end
  end.

End Libraries.

End Screening.

(** ** Processing a message (main.py, utils/email_processor.py) *)

Module Bot.

Import Ledger Screening.

(** The mailbox as far as the bot touches it: the messages that carry
    the UNREAD label, and the replies that went out (thread and text). *)
Record mailbox := Mailbox {
  unread : gset string;
  sent : list (string * string)
}.

Record world := World {
  cm : ConversationManager;
  dsk : gmap string file;
  mbox : mailbox
}.

(** [{"response_text": .., "application_complete": ..}] *)
Record response_result := Response {
  reply_text : string;
  reply_complete : bool
}.

(** What the calls that leave the process do while one message is
    handled. *)
Record outcomes := Outcomes {
  judge : option string;       (* reply of the missing-information call *)
  reply : option string;       (* reply of the call that writes the mail *)
  send_ok : bool;              (* [messages().send(...).execute()] returns *)
  mark_ok : bool;              (* [messages().modify(...).execute()] returns *)
  images_dir_exists : bool;
  now_applicant : string;
  now_system : string;
  save_applicant : write_outcome;
  save_update : write_outcome;
  save_system : write_outcome;
  save_complete : write_outcome
}.

(** [send_email_response]: [True] when sent, [False] when the call
    raised. *)
Definition send_email_response (ok : bool) (e : email_data) (text : string)
    (m : mailbox) : mailbox * bool :=
  if ok then (Mailbox (unread m) (sent m ++ [(thread_id e, text)])%list, true)
  else (m, false).

(** [mark_as_read] *)
Definition mark_as_read (ok : bool) (message_id : string) (m : mailbox)
  : mailbox * bool :=
  if ok then (Mailbox (unread m ∖ {[message_id]}) (sent m), true)
  else (m, false).

(** The keys that the normalisation of [process_job_application] looks
    for in the extraction.  On a text each test ['key' in
    extracted_info] is a substring test, and the index
    [extracted_info['key']] that follows a hit raises [TypeError]. *)
Definition names_a_section (text : string) : bool :=
  Str.contains "personal_information" text || Str.contains "education" text
  || Str.contains "work_experience" text || Str.contains "skills" text.

(** Whether lines 364-387 of [process_job_application] raise: the
    analysis still has its ['extracted_information'] ([analyze_resume]
    did not return [{}]), that is a text, and the text names a section. *)
Definition normalisation_raises (result : tool_response)
    (analysis : analysis_result) : bool :=
  match result, extracted analysis with
  | Prose text _, Some _ => names_a_section text
  | _, _ => false
  end.

Section Libraries.

Variable re_search : bool -> string -> string -> option string.
Variable re_findall : string -> string -> list string.
Variable json_loads : string -> loads.

(** The verdict part of [generate_response] on the ledger: the write of
    ['Full Name'] lands in the ledger when the thread has a dictionary
    there, and in a temporary [{}] otherwise. *)
Definition evaluate_thread (c : ConversationManager) (e : email_data)
    (ar : analysis_result) : ConversationManager * option verdict :=
  let '(provided_info', v) :=
    evaluate re_search re_findall (get_provided_information c (thread_id e)) e ar in
  (match provided_information c !! thread_id e with
   | Some _ =>
       Manager (active_threads c)
               (<[thread_id e := provided_info']> (provided_information c))
   | None => c
   end, v).

(** [generate_response]: verdict, text from the model, then the send,
    whose result is dropped. *)
Definition generate_response (o : outcomes) (e : email_data)
    (ar : analysis_result) (w : world) : world * option response_result :=
  let '(c, v) := evaluate_thread (cm w) e ar in
  match v, reply o with
  | Some v, Some text =>
      let result := Response (Str.strip text) (complete v) in
      let '(m, _) := send_email_response (send_ok o) e (reply_text result) (mbox w) in
      (World c (dsk w) m, Some result)
  | _, _ => (World c (dsk w) (mbox w), None)
  end.

(** [process_job_application], up to the end of the ledger's part in
    it.  The background check that follows a complete application writes
    its own file and mails the HR address; it touches neither the ledger
    nor the UNREAD label.  When the normalisation raises, the [except]
    clause of the function is all that runs: no field is merged, no
    reply is written and the message is not marked. *)
Definition process_job_application (o : outcomes) (result : tool_response)
    (e : email_data) (w : world) : world :=
  let analysis := analyze_resume re_findall json_loads (fields_of result) (judge o) in
  if normalisation_raises result analysis then w else
  let provided_info := provided_info_of re_search e analysis (images_dir_exists o) in
  let analysis := analysis_after_append re_search e analysis in
  let '(c1, d1) :=
    update_provided_information (thread_id e) provided_info (save_update o)
                                (cm w, dsk w) in
  let '(w2, response) := generate_response o e analysis (World c1 d1 (mbox w)) in
  let '(c3, d3) :=
    match response with
    | Some r => add_message (thread_id e) "system" (reply_text r) None
                            (now_system o) (save_system o) (cm w2, dsk w2)
    | None => (cm w2, dsk w2)
    end in
  let '(m4, _) := mark_as_read (mark_ok o) (message_id e) (mbox w2) in
  let '(c5, d5) :=
    match response with
    | Some r =>
        if reply_complete r
        then complete_conversation (thread_id e) (save_complete o) (c3, d3)
        else (c3, d3)
    | None => (c3, d3)
    end in
  World c5 d5 m4.

(** [process_email] *)
Definition process_email (o : outcomes) (result : tool_response)
    (e : email_data) (w : world) : world :=
  if (String.eqb (sender_email e) HR_EMAIL || Str.contains HR_EMAIL (sender_email e))
     && Str.contains "Background Check Results:" (subject e)
  then World (cm w) (dsk w) (mark_as_read (mark_ok o) (message_id e) (mbox w)).1
  else
    let '(c1, d1) :=
      add_message (thread_id e) "applicant" (body e) (Some (basic_info re_search e))
                  (now_applicant o) (save_applicant o) (cm w, dsk w) in
    if Triage.is_job_application (Triage.classify_email e)
    then process_job_application o result e (World c1 d1 (mbox w))
    else World c1 d1 (mark_as_read (mark_ok o) (message_id e) (mbox w)).1.

End Libraries.

End Bot.

(** ** The cache directory at start-up, and the thread summaries
    (utils/conversation_manager.py) *)

Module Archive.

Import Ledger.

(** What [json.load] gives for a file of the cache directory: a list of
    messages (the old format), an object with a ['messages'] entry and,
    perhaps, ['metadata']['provided_information'] (the new format), or an
    exception, of [open] or of [json.load].  JSON of another shape, which
    the last branch of [load_all_conversations] stores as it is, is no
    list of messages and is outside this model. *)
Inductive document :=
  | MessageList (messages : list message)
  | Conversation (messages : list message)
                 (metadata_provided_information : option field_map)
  | Unreadable.

(** [s.endswith(suffix)] *)
Fixpoint endswith (suffix s : string) : bool :=
  String.eqb s suffix
  || match s with
     | EmptyString => false
     | String _ r => endswith suffix r
     end.

(** One round of the loop of [load_all_conversations]; [None] when the
    round raises. *)
Definition load_file (cm : ConversationManager) (file : string) (data : document)
  : option ConversationManager :=
  if endswith ".json" file
  then
    let thread_id := Str.before_first "." file in
    match data with
    | MessageList messages =>
        Some (Manager (<[thread_id := messages]> (active_threads cm))
                      (<[thread_id := ∅]> (provided_information cm)))
    | Conversation messages info =>
        Some (Manager (<[thread_id := messages]> (active_threads cm))
                      (<[thread_id := default ∅ info]> (provided_information cm)))
    | Unreadable => None
    end
  else Some cm.

(** The loop: the [except] clause is outside of it, so the first round
    that raises ends the loading, and what was loaded stays. *)
Fixpoint load_files (cm : ConversationManager) (files : list (string * document))
  : ConversationManager :=
  match files with
  | [] => cm
  | (file, data) :: rest =>
      match load_file cm file data with
      | Some cm' => load_files cm' rest
      | None => cm
      end
  end.

(** [__init__] with [load_all_conversations]; [files] is the result of
    [os.listdir], each name with what [json.load] gives for it, and
    [None] when [os.listdir] raises. *)
Definition load_all_conversations (files : option (list (string * document)))
  : ConversationManager :=
  match files with
  | Some files => load_files init files
  | None => init
  end.

(** What a file written by [save_conversation] reads as.  A truncated
    file holds a proper prefix of a document, which [json.load] rejects. *)
Definition read (f : file) : document :=
  match f with
  | Saved messages info => Conversation messages (Some info)
  | Truncated => Unreadable
  end.

(** The file of a thread is [f"{thread_id}.json"]. *)
Definition file_name (thread_id : string) : string := thread_id ++ ".json".

(** The names and documents of the files of some threads, and a
    listing of the cache directory that holds the files of [d]. *)
Definition listing (files : list (string * file)) : list (string * document) :=
  (fun tf => (file_name tf.1, read tf.2)) <$> files.

Definition listdir (d : disk) : list (string * document) :=
  listing (map_to_list d).

(** The two parts of a whole document. *)
Definition messages_of (f : file) : option (list message) :=
  match f with
  | Saved messages _ => Some messages
  | Truncated => None
  end.

Definition information_of (f : file) : option field_map :=
  match f with
  | Saved _ info => Some info
  | Truncated => None
  end.

(** A thread id that is a file name of its own: no dot, which
    [file.split('.')[0]] would cut at, and no path separator. *)
Definition simple_id (thread_id : string) : bool :=
  negb (Str.contains "." thread_id) && negb (Str.contains "/" thread_id)
  && negb (Str.contains "\" thread_id).

(** An entry of a listing whose round of the loop does not raise. *)
Definition readable (entry : string * document) : Prop :=
  endswith ".json" entry.1 = true -> entry.2 <> Unreadable.

(** A cache directory in which every file is a whole document under a
    simple thread id. *)
Definition intact (d : disk) : Prop :=
  forall t f, d !! t = Some f -> simple_id t = true /\ f <> Truncated.

(** [get_active_thread_count] *)
Definition get_active_thread_count (cm : ConversationManager) : nat :=
  size (active_threads cm).

(** The dictionary that [get_thread_summary] returns. *)
Record thread_summary := ThreadSummary {
  summary_thread_id : string;
  message_count : nat;
  applicant_messages : nat;
  system_messages : nat;
  first_message_time : option string;
  last_message_time : option string;
  last_message_role : option string
}.

(** [sum(1 for msg in history if msg["role"] == r)] *)
Definition count_role (r : string) (history : list message) : nat :=
  length (filter (fun msg => role msg = r) history).

(** [get_thread_summary] *)
Definition get_thread_summary (cm : ConversationManager) (thread_id : string)
  : option thread_summary :=
  history ← active_threads cm !! thread_id;
  Some (ThreadSummary thread_id (length history)
          (count_role "applicant" history) (count_role "system" history)
          (timestamp <$> head history) (timestamp <$> last history)
          (role <$> last history)).

(** A call of one of the three methods that change the ledger. *)
Inductive call :=
  | Add (thread_id role content : string) (provided_info : option field_map)
        (now : string) (out : write_outcome)
  | Update (thread_id : string) (provided_info : field_map) (out : write_outcome)
  | Complete (thread_id : string) (out : write_outcome).

Definition run_call (c : call) (st : ConversationManager * disk)
  : ConversationManager * disk :=
  match c with
  | Add t r content pi now out => add_message t r content pi now out st
  | Update t pi out => update_provided_information t pi out st
  | Complete t out => complete_conversation t out st
  end.

Definition run_calls (cs : list call) (st : ConversationManager * disk)
  : ConversationManager * disk :=
  foldl (fun s c => run_call c s) st cs.

Definition outcome_of (c : call) : write_outcome :=
  match c with
  | Add _ _ _ _ _ out => out
  | Update _ _ out => out
  | Complete _ out => out
  end.

(** A turn without the dictionary that it carries.  [add_message] puts
    the caller's dictionary itself into the turn, so a caller that keeps
    the dictionary and changes it changes the turn in memory; role,
    content and time stamp of a turn are strings that nothing changes. *)
Definition turn_of (m : message) : string * string * string :=
  (role m, content m, timestamp m).

(** The file of every active thread holds the turns that memory holds of
    it, the dictionaries that the turns carry apart, and the field map
    that memory holds of it. *)
Definition mirrored (st : ConversationManager * disk) : Prop :=
  forall t messages,
    active_threads st.1 !! t = Some messages ->
    exists saved,
      st.2 !! t = Some (Saved saved (get_provided_information st.1 t))
      /\ turn_of <$> saved = turn_of <$> messages.

End Archive.

(** ** The name for the background check ([process_job_application]) *)

Module Background.

Import Screening.

Section Libraries.

Variable re_search : bool -> string -> string -> option string.

(** The loop over the sign-off patterns: the first match that has a
    word ends it; [""] when none has. *)
Fixpoint signoff_name (patterns : list string) (body : string) : string :=
  match patterns with
  | [] => ""
  | pattern :: rest =>
      match re_search true pattern body with
      | Some g =>
          let body_name := Str.title (Str.strip g) in
          if Nat.leb 1 (length (Str.split_ws body_name)) then body_name
          else signoff_name rest body
      | None => signoff_name rest body
      end
  end.

(** The name found in the body, [""] when there is none. *)
Definition name_in_body (e : email_data) : string :=
  if nonempty (body e) then signoff_name signoff_patterns (body e) else "".

(** [applicant_name] as the chain of [if]/[elif] leaves it;
    [provided_info] is the dictionary that [process_job_application]
    built for the mail. *)
Definition applicant_name (e : email_data) (provided_info : field_map)
    (ar : analysis_result) : value :=
  if nonempty (name_in_body e) then VStr (name_in_body e)
  else
    match provided_info !! "Full Name" with
    | Some v => v
    | None =>
        match ei ← extracted ar; pi ← personal_information ei; pi !! "name" with
        | Some n => VStr n
        | None => VStr (sender_name e)
        end
    end.

(** [if applicant_name:], the guard of the background check. *)
Definition background_check_runs (e : email_data) (provided_info : field_map)
    (ar : analysis_result) : bool :=
  truthy (applicant_name e provided_info ar).

End Libraries.

End Background.

(** ** The reply of the analysis model (utils/tool_response_extractor.py) *)

Module Extractor.


End Extractor.

(** ** Reading a message ([extract_email_data] of utils/email_processor.py) *)

Module Mail.

Record header := Header { header_name : string; header_value : string }.

(** The ['body'] of a part. *)
Record part_body := PartBody {
  data : option string;
  attachmentId : option string
}.

(** A part of the payload; a part without ['parts'] has the empty list,
    which the code treats alike. *)
#[warnings="-register-all"] Inductive part :=
  Part (mimeType : option string) (body_of : option part_body)
       (filename_of : option string) (parts : list part).

Definition mimeType (p : part) : option string :=
  match p with Part m _ _ _ => m end.
Definition body_of (p : part) : option part_body :=
  match p with Part _ b _ _ => b end.
Definition filename_of (p : part) : option string :=
  match p with Part _ _ f _ => f end.
Definition parts (p : part) : list part :=
  match p with Part _ _ _ ps => ps end.

Record payload := Payload {
  headers : list header;
  payload_parts : list part;
  payload_body : option part_body
}.

(** A message as [messages().get(format='full')] returns it. *)
Record gmail_message := GmailMessage {
  id : string;
  threadId : string;
  message_payload : payload
}.

(** [next((h['value'] for h in headers if h['name'].lower() == n), default)] *)
Definition next_header (n default : string) (hs : list header) : string :=
  match List.find (fun h => String.eqb (Str.lower (header_name h)) n) hs with
  | Some h => header_value h
  | None => default
  end.

(** The sender name and address out of the From header. *)
Definition parse_sender (from_header : string) : string * string :=
  if Str.contains "<" from_header && Str.contains ">" from_header
  then (Str.strip (Str.before_first "<" from_header),
        Str.strip (Str.before_first ">" (Str.split_second "<" from_header)))
  else ("Unknown", from_header).

(** The data of a part of type text/plain or text/html. *)
Definition text_data (p : part) : option string :=
  match mimeType p with
  | Some m =>
      if String.eqb m "text/plain" || String.eqb m "text/html"
      then b ← body_of p; data b
      else None
  | None => None
  end.

(** The part with its nested parts cut off. *)
Definition top_level (p : part) : part :=
  Part (mimeType p) (body_of p) (filename_of p) [].

Section Libraries.

(** [base64.urlsafe_b64decode(d).decode('utf-8')]; [None] when it raises. *)
Variable decode : string -> option string.

(** [get_body_from_part]: [None] when it raises, [Some None] when it
    returns [None]. *)
Fixpoint get_body_from_part (p : part) : option (option string) :=
  match text_data p with
  | Some d => s ← decode d; Some (Some s)
  | None =>
      match p with
      | Part _ _ _ ps =>
          (fix scan (l : list part) : option (option string) :=
             match l with
             | [] => Some None
             | subpart :: rest =>
                 match get_body_from_part subpart with
                 | None => None
                 | Some (Some body_text) =>
                     if Screening.nonempty body_text then Some (Some body_text)
                     else scan rest
                 | Some None => scan rest
                 end
             end) ps
      end
  end.

(** The loop over the parts of the payload that ends at the first text
    found; [""] when there is none. *)
Fixpoint first_body (ps : list part) : option string :=
  match ps with
  | [] => Some ""
  | p :: rest =>
      match get_body_from_part p with
      | None => None
      | Some (Some body_text) =>
          if Screening.nonempty body_text then Some body_text else first_body rest
      | Some None => first_body rest
      end
  end.

(** The loop that collects the attachments; [part['mimeType']] and
    [part['body']] raise when the key is absent. *)
Fixpoint attachments_of (ps : list part) : option (list attachment) :=
  match ps with
  | [] => Some []
  | p :: rest =>
      match filename_of p with
      | Some f =>
          if Screening.nonempty f
          then
            content_type ← mimeType p;
            b ← body_of p;
            found ← attachments_of rest;
            Some (Attachment f content_type (default "" (attachmentId b)) :: found)
          else attachments_of rest
      | None => attachments_of rest
      end
  end.

(** [extract_email_data]; [None] is the [{}] of its [except] clause. *)
Definition extract_email_data (msg : gmail_message) : option email_data :=
  let pl := message_payload msg in
  let subject := next_header "subject" "No Subject" (headers pl) in
  let from_header := next_header "from" "Unknown Sender" (headers pl) in
  let sender := parse_sender from_header in
  body0 ← first_body (payload_parts pl);
  body ← (if Screening.nonempty body0 then Some body0
          else match b ← payload_body pl; data b with
               | Some d => decode d
               | None => Some ""
               end);
  found ← attachments_of (payload_parts pl);
  Some (Email sender.1 sender.2 subject body found (threadId msg) (id msg)).

End Libraries.

End Mail.

(** ** The round over the unread mail ([check_emails] of main.py,
    [get_unread_emails] of utils/email_processor.py) *)

Module Inbox.

Import Bot.

(** What the calls for one listed message do: [messages().get], then
    [extract_email_data] ([Some None] is its [{}]), the analysis and the
    calls of [process_email], and the write of the processed-mail file. *)
Record handling := Handling {
  fetch : option (option email_data);
  analysis : tool_response;
  calls : outcomes;
  dump_ok : bool
}.

(** The answers of [messages().list]: to the query for unread mail of
    the HR address and to the query for all unread mail; or a call of
    [get_unread_emails] raises. *)
Inductive gmail_answer :=
  | Answers (hr_messages messages : list (string * handling))
  | CallRaises.

(** [get_unread_emails]: the unread mail of the HR address when there
    is some, all unread mail otherwise, [[]] when a call raises. *)
Definition get_unread_emails (answer : gmail_answer) : list (string * handling) :=
  match answer with
  | Answers hr_messages messages =>
      match hr_messages with
      | [] => messages
      | _ => hr_messages
      end
  | CallRaises => []
  end.

Record state := State {
  processed_emails : gset string;
  the_world : world
}.

Section Libraries.

Variable re_search : bool -> string -> string -> option string.
Variable re_findall : string -> string -> list string.
Variable json_loads : string -> loads.

(** [process_email] on what [extract_email_data] returned: on [{}] the
    first look into the dictionary raises, and the [except] clause is
    all that runs. *)
Definition process_fetched (h : handling) (e : option email_data) (w : world)
  : world :=
  match e with
  | Some e => process_email re_search re_findall json_loads (calls h) (analysis h) e w
  | None => w
  end.

(** The loop of [check_emails]; a call that raises ends it. *)
Fixpoint check_messages (messages : list (string * handling)) (s : state) : state :=
  match messages with
  | [] => s
  | (message_id, h) :: rest =>
      if bool_decide (message_id ∈ processed_emails s) then check_messages rest s
      else
        match fetch h with
        | None => s
        | Some e =>
            let s' := State ({[ message_id ]} ∪ processed_emails s)
                            (process_fetched h e (the_world s)) in
            if dump_ok h then check_messages rest s' else s'
        end
  end.

(** [check_emails] *)
Definition check_emails (answer : gmail_answer) (s : state) : state :=
  check_messages (get_unread_emails answer) s.

End Libraries.

End Inbox.

(** ** Concrete inputs *)

Module Sample.

Import Ledger.

(** A thread whose applicant gave a phone number, and the same thread
    after a later mail whose body holds "Phone:" before a run of blanks:
    the pattern captures the blanks and [strip] leaves the empty string. *)
Definition phone_given : ConversationManager * gmap string file :=
  apply_merges "t1" [UpdateInfo {[ "Phone Number" := VStr "555 0100" ]} Written]
               (init, ∅).

Definition phone_blank : merge_op :=
  UpdateInfo {[ "Phone Number" := VStr "" ]} Written.

(** A first mail on a thread, stored while the cache directory cannot
    be written. *)
Definition first_mail_info : field_map :=
  {[ "Full Name" := VStr "Ann Lee" ]} ∪ {[ "Email Address" := VStr "ann@example.org" ]}.

Definition first_mail (out : write_outcome) : ConversationManager * gmap string file :=
  add_message "t1" "applicant" "Please find my application attached."
              (Some first_mail_info) "2025-01-01T09:00:00" out (init, ∅).

(** Stand-ins for [re] and [json] on the texts of this module: none of
    the texts holds an anchor word of a pattern ("phone", "tel",
    "education", "degree", "regards," and the like), so no search
    matches; and no reply of the judge used here is JSON. *)
Definition no_match (ignorecase : bool) (pattern text : string) : option string := None.
Definition no_matches (pattern text : string) : list string := [].
Definition not_json (text : string) : loads := DecodeError.

Definition plain_body : string := "Hello, I would like to work with you.".

(** A mail from the HR address itself that reads like an application. *)
Definition hr_mail : email_data :=
  Email "Cindy Sim" "cindysim@arxmedia.co" "Application for the editor position"
        "I would like to apply; my resume is attached."
        [Attachment "resume.pdf" "application/pdf" "a1"] "t0" "m0".

(** An applicant's mail without attachment. *)
Definition mail : email_data :=
  Email "Ann Lee" "ann@example.org" "Application for Editor" plain_body [] "t1" "m1".

(** The mailbox holds the mail unread; the ledger is as [process_email]
    left it after storing the turn. *)
Definition inbox : Bot.mailbox := Bot.Mailbox {[ "m1" ]} [].

Definition world_before : Bot.world :=
  Bot.World (first_mail Written).1 (first_mail Written).2 inbox.

(** The judge's call raises, the reply is written, and the send fails. *)
Definition send_fails : Bot.outcomes :=
  Bot.Outcomes None (Some "Dear Ann, please send us your phone number.")
               false true false "2025-01-01T09:00:00" "2025-01-01T09:00:05"
               Written Written Written Written.

(** An analysis whose extraction describes absence: a name of blanks,
    and an education entry that says that the resume gives none. *)
Definition absent_education : list entry :=
  [Screening.description_entry "not specified in resume"].


(** A field map with all six required keys, whose education is the
    entry above. *)
Definition six_fields : field_map :=
  {[ "Full Name" := VStr "Ann Lee" ]} ∪ {[ "Email Address" := VStr "ann@example.org" ]}
  ∪ {[ "Phone Number" := VStr "555 0100" ]} ∪ {[ "Resume/CV" := VBool true ]}
  ∪ {[ "Work Experience" := VEntries [Screening.description_entry "editor, 2019-2024"] ]}
  ∪ {[ "Education" := VEntries absent_education ]}.

(** The same map with an optional field more. *)
Definition six_fields_and_portfolio : field_map :=
  <[ "Portfolio" := VStr "https://example.org/ann" ]> six_fields.

(** An optional field, as an item of a missing list. *)
Definition portfolio : requirement :=
  Req "Portfolio" "Link to online portfolio or work samples".

End Sample.

(** Further inputs. *)

Module Cases.

(** A mail that is about no application. *)
Definition lunch_mail : email_data :=
  Email "Bob Ray" "bob@example.org" "Lunch on Friday" "Shall we meet at noon?"
        [] "t2" "m2".


(** An analysis as [analyze_resume] leaves it when the judge's JSON
    lists the phone number as missing. *)
Definition phone_item : requirement := Req "Phone Number" "Valid phone number".

Definition judge_lists_phone : analysis_result :=
  Analysis None None (Some [phone_item]) (Some false).

(** Two replies of the judge that name the optional field Portfolio as
    missing: a JSON document, and a sentence. *)
Definition portfolio_json : string :=
  "{" ++ Str.dq ++ "missing_information" ++ Str.dq ++ ": [{"
  ++ Str.dq ++ "name" ++ Str.dq ++ ": " ++ Str.dq ++ "Portfolio" ++ Str.dq ++ ", "
  ++ Str.dq ++ "description" ++ Str.dq ++ ": "
  ++ Str.dq ++ "Link to online portfolio or work samples" ++ Str.dq ++ "}], "
  ++ Str.dq ++ "application_complete" ++ Str.dq ++ ": false}".

Definition portfolio_prose : string :=
  "The application is complete; only the optional **Portfolio:** is missing.".

(** [json.loads] and [re.findall] on these two replies: the document
    parses to its object and the sentence is no JSON; of the four
    patterns of the fallback only the bold one matches the sentence. *)
Definition loads_reply (text : string) : loads :=
  if String.eqb text portfolio_json then Object (Some [Sample.portfolio])
  else DecodeError.

Definition findall_reply (pattern text : string) : list string :=
  if String.eqb pattern "\*\*([^:]+):\*\*" && String.eqb text portfolio_prose
  then ["Portfolio"] else [].

(** Two messages as the API returns them: one whose text and file are
    inside a nested multipart, and one with a bare address as sender and
    its text in the payload itself.  The data of these messages is
    written here as the text that it decodes to. *)
Definition as_written (d : string) : option string := Some d.

Definition nested_message : Mail.gmail_message :=
  Mail.GmailMessage "m4" "t4"
    (Mail.Payload
       [ Mail.Header "From" "Ann Lee <ann@example.org>";
         Mail.Header "Subject" "Application for Editor" ]
       [ Mail.Part (Some "multipart/mixed") None None
           [ Mail.Part (Some "text/plain")
               (Some (Mail.PartBody (Some "Please find my resume attached.") None))
               None [];
             Mail.Part (Some "application/pdf")
               (Some (Mail.PartBody None (Some "a1"))) (Some "resume.pdf") [] ] ]
       None).

Definition bare_message : Mail.gmail_message :=
  Mail.GmailMessage "m5" "t5"
    (Mail.Payload [ Mail.Header "From" "ann@example.org" ] []
       (Some (Mail.PartBody (Some "Hello, I would like to work with you.") None))).

(** A message that [extract_email_data] could not read, and the round
    after a mail of the HR address was handled and stayed unread. *)
Definition unreadable_mail : Inbox.handling :=
  Inbox.Handling (Some None) (Fields empty_result) Sample.send_fails true.

Definition hr_mail_handled : Inbox.state :=
  Inbox.State {[ "m0" ]} Sample.world_before.

Definition applicant_mail : Inbox.handling :=
  Inbox.Handling (Some (Some Sample.mail)) (Fields empty_result) Sample.send_fails true.

(** Every call succeeds; the judge answers in a sentence. *)
Definition all_calls_succeed : Bot.outcomes :=
  Bot.Outcomes (Some "Something is still open.")
               (Some "Dear Ann, please send us your phone number.")
               true true false "2025-01-01T09:00:00" "2025-01-01T09:00:05"
               Ledger.Written Ledger.Written Ledger.Written Ledger.Written.

(** An analysis whose extraction came as a sentence, not as JSON. *)
Definition prose_analysis : tool_response :=
  Prose "The resume lists education and skills, but no phone number." false.

(** Two education entries: a degree, and a note that says that the
    resume gives none. *)
Definition mixed_education : list entry :=
  [ Screening.description_entry "Master of Science in Physics, 2018";
    Screening.description_entry "not specified in resume" ].

End Cases.

(** * Properties *)

(** ** The ledger *)

Section LedgerFacts.

Import Ledger.

Implicit Types (st : ConversationManager * gmap string file) (t : string).

Lemma dict_update_lookup (d other : field_map) (k : string) :
  dict_update d other !! k =
  match other !! k with Some v => Some v | None => d !! k end.
Proof.
  unfold dict_update. rewrite lookup_union.
  destruct (other !! k) as [v|] eqn:Ho, (d !! k) as [w|] eqn:Hd; reflexivity.
Qed.

Lemma dict_update_idem (m : field_map) : dict_update m m = m.
Proof. unfold dict_update. apply (idemp_L (∪)). Qed.

Lemma cumulative_update t pi out st :
  cumulative t (update_provided_information t pi out st)
  = dict_update (cumulative t st) pi.
Proof.
  destruct st as [c d]. unfold cumulative, update_provided_information,
    get_provided_information. cbn.
  destruct (provided_information c !! t) as [m|] eqn:Hm; cbn.
  - rewrite lookup_insert_eq, Hm. reflexivity.
  - rewrite !lookup_insert_eq. reflexivity.
Qed.

Lemma cumulative_add_applicant t c pi now out st :
  cumulative t (add_message t "applicant" c (Some pi) now out st)
  = dict_update (cumulative t st) pi.
Proof.
  destruct st as [m d]. unfold cumulative, add_message,
    get_provided_information. cbn.
  destruct (decide (pi = ∅)) as [->|Hne].
  - rewrite bool_decide_eq_true_2 by reflexivity. cbn.
    unfold dict_update. rewrite (left_id_L ∅ (∪)).
    destruct (provided_information m !! t) as [x|] eqn:Hm; cbn.
    + rewrite Hm. reflexivity.
    + rewrite lookup_insert_eq. reflexivity.
  - rewrite bool_decide_eq_false_2 by assumption. cbn.
    destruct (provided_information m !! t) as [x|] eqn:Hm; cbn.
    + rewrite lookup_insert_eq, Hm. reflexivity.
    + rewrite !lookup_insert_eq. reflexivity.
Qed.

Lemma cumulative_apply_merge t op st :
  cumulative t (apply_merge t op st) = dict_update (cumulative t st) (op_info op).
Proof.
  destruct op; cbn [apply_merge op_info].
  - apply cumulative_add_applicant.
  - apply cumulative_update.
Qed.

Lemma apply_merges_snoc t ops op st :
  apply_merges t (ops ++ [op]) st = apply_merge t op (apply_merges t ops st).
Proof. unfold apply_merges. rewrite foldl_app. reflexivity. Qed.

Lemma apply_merges_keeps_key t ops st (k : string) :
  is_Some (cumulative t st !! k) ->
  is_Some (cumulative t (apply_merges t ops st) !! k).
Proof.
  intros Hk. induction ops as [|op ops IH] using rev_ind.
  - exact Hk.
  - rewrite apply_merges_snoc, cumulative_apply_merge, dict_update_lookup.
    destruct (op_info op !! k); [eauto | exact IH].
Qed.

(** C2 (as the code has it): a key that is in the cumulative map of a
    thread is in it after every further sequence of merges, by
    [add_message] or [update_provided_information]; and a merge is
    last-writer-wins: after it the key holds the value of the incoming
    dictionary when that has the key, whatever that value is, and its old
    value otherwise. *)
Theorem merges_keep_keys_last_writer_wins t ops op st (k : string) :
  is_Some (cumulative t st !! k) ->
  is_Some (cumulative t (apply_merges t ops st) !! k)
  /\ cumulative t (apply_merge t op (apply_merges t ops st)) !! k
     = match op_info op !! k with
       | Some v => Some v
       | None => cumulative t (apply_merges t ops st) !! k
       end.
Proof.
  intros Hk. split.
  - by apply apply_merges_keeps_key.
  - by rewrite cumulative_apply_merge, dict_update_lookup.
Qed.

Lemma merges_keep_keys_last_writer_wins_witness :
  is_Some (cumulative "t1" Sample.phone_given !! "Phone Number")
  /\ (is_Some (cumulative "t1"
                 (apply_merges "t1" [Sample.phone_blank] Sample.phone_given)
               !! "Phone Number")
      /\ cumulative "t1"
           (apply_merge "t1" Sample.phone_blank
              (apply_merges "t1" [Sample.phone_blank] Sample.phone_given))
         !! "Phone Number"
         = match op_info Sample.phone_blank !! "Phone Number" with
           | Some v => Some v
           | None => cumulative "t1"
                       (apply_merges "t1" [Sample.phone_blank] Sample.phone_given)
                     !! "Phone Number"
           end).
Proof.
  assert (H : is_Some (cumulative "t1" Sample.phone_given !! "Phone Number")).
  { vm_compute. eexists. reflexivity. }
  split; [exact H|].
  exact (merges_keep_keys_last_writer_wins "t1" [Sample.phone_blank]
           Sample.phone_blank Sample.phone_given "Phone Number" H).
Defined.

(** C2 fails as stated: a phone number that is present and non-empty is
    overwritten by the empty string of a later merge. *)
Lemma merge_overwrites_with_empty_value :
  (cumulative "t1" Sample.phone_given !! "Phone Number" = Some (VStr "555 0100")
   /\ truthy (VStr "555 0100") = true)
  /\ (cumulative "t1" (apply_merge "t1" Sample.phone_blank Sample.phone_given)
      !! "Phone Number" = Some (VStr "")
      /\ truthy (VStr "") = false).
Proof. vm_compute. repeat split. Qed.

(** C3: merging into a thread the map that its cumulative map already
    is leaves the cumulative map as it was, whatever the write does. *)
Theorem merge_same_map_is_identity t c now out st :
  cumulative t (update_provided_information t (cumulative t st) out st)
  = cumulative t st
  /\ cumulative t (add_message t "applicant" c (Some (cumulative t st)) now out st)
     = cumulative t st.
Proof.
  rewrite cumulative_update, cumulative_add_applicant.
  split; apply dict_update_idem.
Qed.

Lemma history_after_add_message t r c pi now out st :
  exists m,
    role m = r /\ content m = c /\ timestamp m = now
    /\ get_conversation_history (add_message t r c pi now out st).1 t
       = (get_conversation_history st.1 t ++ [m])%list.
Proof.
  destruct st as [m d]. unfold add_message, get_conversation_history. cbn.
  eexists. repeat split; [| | |rewrite lookup_insert_eq; cbn; f_equal];
    try reflexivity.
  destruct (active_threads m !! t) eqn:Ht; cbn.
  - by rewrite Ht.
  - by rewrite lookup_insert_eq.
Qed.

Lemma active_after_add_message t r c pi now out st :
  active_threads (add_message t r c pi now out st).1 !! t
  = Some (get_conversation_history (add_message t r c pi now out st).1 t).
Proof.
  destruct st as [m d]. unfold add_message, get_conversation_history. cbn.
  by rewrite lookup_insert_eq.
Qed.

Lemma history_after_add_message_eq t r c pi now out st :
  get_conversation_history (add_message t r c pi now out st).1 t
  = (get_conversation_history st.1 t
     ++ [Message r c now
           (if match pi with
               | Some p => negb (bool_decide (p = ∅)) && String.eqb r "applicant"
               | None => false
               end
            then pi else None)])%list.
Proof.
  destruct st as [m d]. unfold add_message, get_conversation_history. cbn.
  rewrite lookup_insert_eq. cbn. f_equal.
  destruct (active_threads m !! t) eqn:Ht; cbn.
  - by rewrite Ht.
  - by rewrite lookup_insert_eq.
Qed.

Lemma cumulative_add_message t r c pi now out st :
  cumulative t (add_message t r c pi now out st)
  = if String.eqb r "applicant"
    then dict_update (cumulative t st) (default ∅ pi)
    else cumulative t st.
Proof.
  destruct st as [m d]. unfold cumulative, add_message, get_provided_information.
  cbn [fst provided_information].
  assert (Hsame : default ∅ (match provided_information m !! t with
                             | Some _ => provided_information m
                             | None => <[t:=∅]> (provided_information m)
                             end !! t)
                  = default ∅ (provided_information m !! t)).
  { destruct (provided_information m !! t) eqn:Hm; cbn.
    - by rewrite Hm.
    - by rewrite lookup_insert_eq. }
  destruct pi as [p|]; cbn [from_option id];
    destruct (String.eqb r "applicant");
    rewrite ?andb_false_r, ?andb_true_r; try exact Hsame.
  - destruct (decide (p = ∅)) as [->|Hne].
    + rewrite bool_decide_eq_true_2 by done. cbn [negb]. rewrite Hsame.
      unfold dict_update. by rewrite (left_id_L ∅ (∪)).
    + rewrite bool_decide_eq_false_2 by done. cbn [negb].
      by rewrite lookup_insert_eq, Hsame.
  - rewrite Hsame. unfold dict_update. by rewrite (left_id_L ∅ (∪)).
Qed.

Lemma add_message_elsewhere t t' r c pi now out st :
  t' <> t ->
  get_conversation_history (add_message t r c pi now out st).1 t'
  = get_conversation_history st.1 t'
  /\ cumulative t' (add_message t r c pi now out st) = cumulative t' st.
Proof.
  intros Hne. destruct st as [m d].
  unfold cumulative, add_message, get_provided_information, get_conversation_history.
  cbn [fst active_threads provided_information]. split.
  - rewrite lookup_insert_ne by done.
    destruct (active_threads m !! t); [done|]. by rewrite lookup_insert_ne.
  - destruct (match pi with Some _ => _ | None => _ end);
      rewrite ?lookup_insert_ne by done;
      destruct (provided_information m !! t); rewrite ?lookup_insert_ne by done; done.
Qed.

(** C6 (as the code has it): [add_message] appends the turn and merges
    in memory first: the history of the thread is longer by the turn, the
    cumulative map of the thread is the old map updated with the
    dictionary of an applicant's turn (and the old map for another role),
    no other thread changes, and the memory it leaves does not depend on
    what the write does.  Only then it writes: a write that succeeds
    leaves on disk the turns and the cumulative map that are in memory; a
    write that fails is logged and swallowed, and leaves the file as it
    was or truncated. *)
Theorem add_message_merges_then_writes t r c pi now out st :
  (add_message t r c pi now out st).1 = (add_message t r c pi now Written st).1
  /\ get_conversation_history (add_message t r c pi now out st).1 t
     = (get_conversation_history st.1 t
        ++ [Message r c now
              (if match pi with
                  | Some p => negb (bool_decide (p = ∅)) && String.eqb r "applicant"
                  | None => false
                  end
               then pi else None)])%list
  /\ cumulative t (add_message t r c pi now out st)
     = (if String.eqb r "applicant"
        then dict_update (cumulative t st) (default ∅ pi)
        else cumulative t st)
  /\ (forall t', t' <> t ->
        get_conversation_history (add_message t r c pi now out st).1 t'
        = get_conversation_history st.1 t'
        /\ cumulative t' (add_message t r c pi now out st) = cumulative t' st)
  /\ match out with
     | Written =>
         (add_message t r c pi now out st).2 !! t
         = Some (Saved
                   (get_conversation_history (add_message t r c pi now out st).1 t)
                   (get_provided_information (add_message t r c pi now out st).1 t))
     | OpenRaises => (add_message t r c pi now out st).2 = st.2
     | DumpRaises => (add_message t r c pi now out st).2 !! t = Some Truncated
     end.
Proof.
  split; [by destruct st|]. split; [apply history_after_add_message_eq|].
  split; [apply cumulative_add_message|].
  split; [intros t' Hne; by apply add_message_elsewhere|].
  pose proof (active_after_add_message t r c pi now out st) as Ha.
  destruct st as [m d].
  unfold add_message in *. cbn [fst snd] in *.
  unfold save_conversation. rewrite Ha.
  destruct out; [by rewrite lookup_insert_eq|done|by rewrite lookup_insert_eq].
Qed.

(** C6 fails as stated: the cache directory cannot be written, yet the
    turn is appended and its fields are merged in memory, while the disk
    holds nothing of the thread. *)
Lemma failed_write_keeps_memory_merge :
  (Sample.first_mail OpenRaises).2 = ∅
  /\ get_conversation_history init "t1" = []
  /\ length (get_conversation_history (Sample.first_mail OpenRaises).1 "t1") = 1
  /\ cumulative "t1" (init, ∅) = ∅
  /\ cumulative "t1" (Sample.first_mail OpenRaises) = Sample.first_mail_info.
Proof. vm_compute. repeat split. Qed.

(** C8 (as the code has it): [complete_conversation] removes an
    active thread from [active_threads] and leaves every other thread
    there, so [get_conversation_history] returns the empty list for it
    from then on; the cumulative map stays in memory, and the file keeps
    the turns and the map when the last save succeeded. *)
Theorem complete_evicts_history_keeps_fields t out st :
  active_threads st.1 !! t <> None ->
  active_threads (complete_conversation t out st).1 !! t = None
  /\ (forall t', t' <> t ->
        active_threads (complete_conversation t out st).1 !! t'
        = active_threads st.1 !! t')
  /\ get_conversation_history (complete_conversation t out st).1 t = []
  /\ provided_information (complete_conversation t out st).1
     = provided_information st.1
  /\ get_provided_information (complete_conversation t out st).1 t
     = get_provided_information st.1 t
  /\ (out = Written ->
      (complete_conversation t out st).2 !! t
      = Some (Saved (get_conversation_history st.1 t)
                    (get_provided_information st.1 t))).
Proof.
  destruct st as [m d]. cbn [fst]. intros Ha.
  unfold complete_conversation, get_conversation_history, save_conversation.
  destruct (active_threads m !! t) as [h|] eqn:Ht; [|done]. cbn.
  rewrite lookup_delete_eq. repeat split.
  - intros t' Hne. by rewrite lookup_delete_ne.
  - intros ->. by rewrite lookup_insert_eq.
Qed.

Lemma complete_evicts_history_keeps_fields_witness :
  active_threads (Sample.first_mail Written).1 !! "t1" <> None
  /\ active_threads
       (complete_conversation "t1" Written (Sample.first_mail Written)).1 !! "t1"
     = None
  /\ get_conversation_history
       (complete_conversation "t1" Written (Sample.first_mail Written)).1 "t1" = []
  /\ get_provided_information
       (complete_conversation "t1" Written (Sample.first_mail Written)).1 "t1"
     = get_provided_information (Sample.first_mail Written).1 "t1"
  /\ (Written = Written ->
      (complete_conversation "t1" Written (Sample.first_mail Written)).2 !! "t1"
      = Some (Saved (get_conversation_history (Sample.first_mail Written).1 "t1")
                    (get_provided_information (Sample.first_mail Written).1 "t1"))).
Proof.
  assert (H : active_threads (Sample.first_mail Written).1 !! "t1" <> None).
  { vm_compute. discriminate. }
  split; [exact H|].
  destruct (complete_evicts_history_keeps_fields "t1" Written
              (Sample.first_mail Written) H) as (H1 & _ & H3 & _ & H5 & H6).
  exact (conj H1 (conj H3 (conj H5 H6))).
Defined.

(** C8 fails as stated: after [complete_conversation] the history that
    [get_conversation_history] returns for the thread is empty, though
    the thread had a turn and the file still has it. *)
Lemma history_empty_after_complete :
  length (get_conversation_history (Sample.first_mail Written).1 "t1") = 1
  /\ get_conversation_history
       (complete_conversation "t1" Written (Sample.first_mail Written)).1 "t1" = []
  /\ (complete_conversation "t1" Written (Sample.first_mail Written)).2 !! "t1"
     = Some (Saved (get_conversation_history (Sample.first_mail Written).1 "t1")
                   Sample.first_mail_info).
Proof. vm_compute. repeat split. Qed.

End LedgerFacts.

(** ** Triage *)

(** C10: a mail whose sender address holds the HR address is never
    classified as a job application, whatever its subject, body and
    attachments are. *)
Theorem hr_mail_is_not_an_application (e : email_data) :
  Str.contains HR_EMAIL (sender_email e) = true ->
  Triage.is_job_application (Triage.classify_email e) = false.
Proof.
  intros H. unfold Triage.classify_email.
  rewrite H, orb_true_r. reflexivity.
Qed.

Lemma hr_mail_is_not_an_application_witness :
  Str.contains HR_EMAIL (sender_email Sample.hr_mail) = true
  /\ Triage.is_job_application (Triage.classify_email Sample.hr_mail) = false.
Proof.
  assert (H : Str.contains HR_EMAIL (sender_email Sample.hr_mail) = true)
    by (vm_compute; reflexivity).
  split; [exact H|].
  exact (hr_mail_is_not_an_application Sample.hr_mail H).
Defined.

(** ** Reply and UNREAD label *)

Section BotFacts.

Import Ledger Screening Bot.

Variable re_search : bool -> string -> string -> option string.
Variable re_findall : string -> string -> list string.
Variable json_loads : string -> loads.

Lemma generate_response_unread o e ar w :
  unread (mbox (generate_response re_search re_findall o e ar w).1) = unread (mbox w).
Proof.
  unfold generate_response.
  destruct (evaluate_thread re_search re_findall (cm w) e ar) as [c [v|]];
    [|reflexivity].
  destruct (reply o) as [text|]; [|reflexivity].
  unfold send_email_response. destruct (send_ok o); reflexivity.
Qed.

Lemma process_job_application_raises o result e w :
  normalisation_raises result
    (analyze_resume re_findall json_loads (fields_of result) (judge o)) = true ->
  process_job_application re_search re_findall json_loads o result e w = w.
Proof. intros Hr. unfold process_job_application. cbv zeta. by rewrite Hr. Qed.

Lemma process_job_application_unread o result e w :
  unread (mbox (process_job_application re_search re_findall json_loads o result e w))
  = if normalisation_raises result
         (analyze_resume re_findall json_loads (fields_of result) (judge o))
    then unread (mbox w)
    else if mark_ok o then unread (mbox w) ∖ {[ message_id e ]} else unread (mbox w).
Proof.
  unfold process_job_application. cbv zeta.
  destruct (normalisation_raises _ _); [done|].
  destruct (update_provided_information _ _ _ _) as [c1 d1].
  pose proof (generate_response_unread o e
    (analysis_after_append re_search e
       (analyze_resume re_findall json_loads (fields_of result) (judge o)))
    (World c1 d1 (mbox w))) as Hu.
  destruct (generate_response _ _ _ _ _ _) as [w2 response].
  cbn [fst mbox] in Hu.
  destruct (match response with Some _ => _ | None => _ end) as [c3 d3].
  unfold mark_as_read.
  destruct (mark_ok o); cbn.
  - destruct (match response with Some _ => _ | None => _ end) as [c5 d5].
    cbn. by rewrite Hu.
  - destruct (match response with Some _ => _ | None => _ end) as [c5 d5].
    cbn. by rewrite Hu.
Qed.

(** C7 (as the code has it): unless its normalisation raises,
    [process_job_application] marks the message as read after
    [generate_response] has returned, whether the reply was sent or not:
    the label goes when the call that removes it succeeds, and the result
    of the send plays no part.  The normalisation raises when the
    analysis carries its extraction as a text that names a section; the
    [except] clause is then all that runs, and the mailbox, the ledger
    and the disk are as they were. *)
Theorem message_marked_read_whatever_the_send o result e w :
  unread (mbox (process_job_application re_search re_findall json_loads o result e w))
  = (if normalisation_raises result
          (analyze_resume re_findall json_loads (fields_of result) (judge o))
     then unread (mbox w)
     else if mark_ok o then unread (mbox w) ∖ {[ message_id e ]}
          else unread (mbox w))
  /\ (normalisation_raises result
        (analyze_resume re_findall json_loads (fields_of result) (judge o)) = false ->
      mark_ok o = true ->
      message_id e ∉
        unread (mbox (process_job_application re_search re_findall json_loads
                                              o result e w)))
  /\ (normalisation_raises result
        (analyze_resume re_findall json_loads (fields_of result) (judge o)) = true ->
      process_job_application re_search re_findall json_loads o result e w = w).
Proof.
  split; [apply process_job_application_unread|].
  split; [|apply process_job_application_raises].
  intros Hr Hm. rewrite process_job_application_unread, Hr, Hm.
  intros [_ Hn]%elem_of_difference. apply Hn. by apply elem_of_singleton.
Qed.

End BotFacts.

Lemma message_marked_read_whatever_the_send_witness :
  Bot.normalisation_raises empty_result
    (Screening.analyze_resume Sample.no_matches Sample.not_json
       (fields_of empty_result) (Bot.judge Sample.send_fails)) = false
  /\ Bot.mark_ok Sample.send_fails = true
  /\ message_id Sample.mail ∉
       Bot.unread (Bot.mbox (Bot.process_job_application
                               Sample.no_match Sample.no_matches Sample.not_json
                               Sample.send_fails empty_result Sample.mail
                               Sample.world_before)).
Proof.
  assert (H : Bot.mark_ok Sample.send_fails = true) by reflexivity.
  split; [reflexivity|]. split; [exact H|].
  exact (proj1 (proj2 (message_marked_read_whatever_the_send
                         Sample.no_match Sample.no_matches Sample.not_json
                         Sample.send_fails empty_result Sample.mail
                         Sample.world_before)) eq_refl H).
Defined.

(** C7, the path of the exception: the extraction is a sentence that
    names a section, the normalisation raises, and the mail, unread
    before, is unread after, with no reply and no change of the ledger. *)
Lemma prose_extraction_leaves_the_mail_unread :
  Bot.normalisation_raises Cases.prose_analysis
    (Screening.analyze_resume Sample.no_matches Sample.not_json
       (fields_of Cases.prose_analysis) (Bot.judge Cases.all_calls_succeed)) = true
  /\ Bot.process_job_application Sample.no_match Sample.no_matches Sample.not_json
       Cases.all_calls_succeed Cases.prose_analysis Sample.mail Sample.world_before
     = Sample.world_before
  /\ message_id Sample.mail ∈ Bot.unread (Bot.mbox Sample.world_before).
Proof.
  split; [vm_compute; reflexivity|].
  split; [|cbn; set_solver].
  unfold Bot.process_job_application. cbv zeta.
  assert (H : Bot.normalisation_raises Cases.prose_analysis
                (Screening.analyze_resume Sample.no_matches Sample.not_json
                   (fields_of Cases.prose_analysis)
                   (Bot.judge Cases.all_calls_succeed)) = true)
    by (vm_compute; reflexivity).
  by rewrite H.
Qed.

(** C7 fails as stated: the send of the reply fails and nothing goes
    out, yet the message, unread before, has lost its UNREAD label. *)
Lemma unsent_reply_still_marks_read :
  message_id Sample.mail ∈ Bot.unread (Bot.mbox Sample.world_before)
  /\ Bot.send_ok Sample.send_fails = false
  /\ Bot.sent (Bot.mbox (Bot.process_job_application
                           Sample.no_match Sample.no_matches Sample.not_json
                           Sample.send_fails empty_result Sample.mail
                           Sample.world_before)) = []
  /\ Bot.unread (Bot.mbox (Bot.process_job_application
                             Sample.no_match Sample.no_matches Sample.not_json
                             Sample.send_fails empty_result Sample.mail
                             Sample.world_before)) = ∅.
Proof.
  split; [cbn; set_solver|].
  split; [reflexivity|].
  split; vm_compute; reflexivity.
Qed.

(** ** Normalisation and completeness *)

Section ScreeningFacts.

Import Ledger Screening Bot.

Variable re_search : bool -> string -> string -> option string.
Variable re_findall : string -> string -> list string.
Variable json_loads : string -> loads.

Implicit Types (pi : field_map) (l : list requirement).

Lemma lookup_put_ne (k k' : string) o (m : field_map) :
  k <> k' -> put k o m !! k' = m !! k'.
Proof. intros H. destruct o; cbn; [by rewrite lookup_insert_ne|done]. Qed.

Lemma lookup_put_eq (k : string) o (m : field_map) :
  put k o m !! k = match o with Some v => Some v | None => m !! k end.
Proof. destruct o; cbn; [by rewrite lookup_insert_eq|done]. Qed.

Lemma filter_agree {A} (P Q : A -> Prop) `{!forall x, Decision (P x)}
    `{!forall x, Decision (Q x)} (xs : list A) :
  (forall x, x ∈ xs -> (P x <-> Q x)) -> filter P xs = filter Q xs.
Proof.
  induction xs as [|x xs IH]; intros Hxs; [done|].
  rewrite !filter_cons.
  rewrite IH by (intros y Hy; apply Hxs; by right).
  destruct (decide (P x)) as [HP|HP], (decide (Q x)) as [HQ|HQ]; try done.
  - destruct HQ. apply Hxs; [by left|done].
  - destruct HP. apply Hxs; [by left|done].
Qed.

Lemma without_comm a b l : without a (without b l) = without b (without a l).
Proof.
  unfold without. rewrite !list_filter_filter.
  apply list_filter_iff. intros x. tauto.
Qed.

Lemma required_information_names req :
  req ∈ required_information -> name req ∈ required_names.
Proof.
  assert (HF : Forall (fun r => name r ∈ required_names) required_information).
  { unfold required_information, required_names.
    repeat constructor; cbn; set_solver. }
  intros Hreq. by apply (proj1 (Forall_forall _ _) HF).
Qed.

Lemma email_is_required : "Email Address" ∈ required_names.
Proof. unfold required_names. set_solver. Qed.

Lemma resume_is_required : "Resume/CV" ∈ required_names.
Proof. unfold required_names. set_solver. Qed.

Lemma education_is_required : "Education" ∈ required_names.
Proof. unfold required_names. set_solver. Qed.

Lemma dom_insert_other (k k' : string) (v : value) pi :
  k <> k' -> (k' ∈ dom (<[k := v]> pi) <-> k' ∈ dom pi).
Proof.
  intros Hne. rewrite dom_insert, elem_of_union, elem_of_singleton.
  split; [intros [Heq|Hd]; [congruence|done]|intros Hd; by right].
Qed.

Lemma agree_on_required_off_name pi pi' :
  agree_on_required pi pi' -> agree_off_name pi pi'.
Proof. intros H n Hn _. by apply H. Qed.

Lemma seed_without_name pi pi' ar :
  agree_off_name pi pi' ->
  without "Full Name" (seed_missing re_findall pi ar)
  = without "Full Name" (seed_missing re_findall pi' ar).
Proof.
  intros Hag. unfold seed_missing. cbv zeta.
  case_bool_decide; [|done].
  unfold without. rewrite !list_filter_filter.
  apply filter_agree. intros req Hreq.
  pose proof (required_information_names req Hreq) as Hn.
  split; intros [Hne Hd]; (split; [done|]); intros Hd'; apply Hd;
    by apply (Hag _ Hn Hne).
Qed.

Lemma seed_agree pi pi' ar :
  agree_on_required pi pi' ->
  seed_missing re_findall pi ar = seed_missing re_findall pi' ar.
Proof.
  intros Hag. unfold seed_missing. cbv zeta.
  case_bool_decide; [|done].
  apply filter_agree. intros req Hreq.
  pose proof (required_information_names req Hreq) as Hn.
  by rewrite (Hag _ Hn).
Qed.

Lemma dom_agree_bool pi pi' (k : string) :
  (k ∈ dom pi <-> k ∈ dom pi') ->
  bool_decide (k ∈ dom pi) = bool_decide (k ∈ dom pi').
Proof. apply bool_decide_ext. Qed.

Lemma filter_provided_agree pi pi' e ar :
  agree_off_name pi pi' ->
  (best_name re_search e ar = None ->
   ("Full Name" ∈ dom pi <-> "Full Name" ∈ dom pi')) ->
  filter_provided re_search pi e ar (seed_missing re_findall pi ar)
  = filter_provided re_search pi' e ar (seed_missing re_findall pi' ar).
Proof.
  intros Hag Hname. unfold filter_provided. cbv zeta.
  rewrite (dom_agree_bool pi pi' "Email Address")
    by (apply Hag; [apply email_is_required|done]).
  rewrite (dom_agree_bool pi pi' "Resume/CV")
    by (apply Hag; [apply resume_is_required|done]).
  destruct (best_name re_search e ar) as [n|].
  - repeat case_match;
      rewrite ?(without_comm "Full Name");
      by rewrite (seed_without_name pi pi' ar Hag).
  - rewrite (seed_agree pi pi' ar); [done|].
    intros n Hn. destruct (decide (n = "Full Name")) as [->|Hne];
      [by apply Hname|by apply Hag].
Qed.

Lemma education_missing_agree pi pi' e ar :
  ("Education" ∈ dom pi <-> "Education" ∈ dom pi') ->
  education_missing pi e ar = education_missing pi' e ar.
Proof.
  intros Hd. unfold education_missing.
  by rewrite (dom_agree_bool pi pi' "Education").
Qed.

Lemma name_written_education e ar pi :
  "Education" ∈ dom (name_written re_search e ar pi) <-> "Education" ∈ dom pi.
Proof.
  unfold name_written. destruct (best_name re_search e ar); [|done].
  by apply dom_insert_other.
Qed.

Lemma evaluate_verdict_agree pi pi' e ar :
  agree_off_name pi pi' ->
  (best_name re_search e ar = None ->
   ("Full Name" ∈ dom pi <-> "Full Name" ∈ dom pi')) ->
  (evaluate re_search re_findall pi e ar).2
  = (evaluate re_search re_findall pi' e ar).2.
Proof.
  intros Hag Hname. unfold evaluate.
  destruct (negb (greeting_name_defined e ar)); [done|].
  destruct (default false (application_complete ar)); [done|]. cbv zeta.
  rewrite (filter_provided_agree pi pi' e ar Hag Hname).
  rewrite (education_missing_agree (name_written re_search e ar pi)
             (name_written re_search e ar pi') e ar).
  - by destruct (education_missing _ _ _).
  - rewrite !name_written_education.
    apply Hag; [apply education_is_required|done].
Qed.

Lemma evaluate_fst pi e ar :
  (evaluate re_search re_findall pi e ar).1
  = if negb (greeting_name_defined e ar) || default false (application_complete ar)
    then pi else name_written re_search e ar pi.
Proof.
  unfold evaluate.
  destruct (negb (greeting_name_defined e ar)); [done|].
  destruct (default false (application_complete ar)); [done|]. cbv zeta.
  by destruct (education_missing _ _ _).
Qed.

Lemma name_written_idem e ar pi :
  name_written re_search e ar (name_written re_search e ar pi)
  = name_written re_search e ar pi.
Proof.
  unfold name_written. destruct (best_name re_search e ar); [|done].
  apply insert_insert_eq.
Qed.

Lemma name_written_agree e ar pi :
  agree_off_name pi (name_written re_search e ar pi).
Proof.
  intros n _ Hne. unfold name_written.
  destruct (best_name re_search e ar); [|done].
  symmetry. by apply dom_insert_other.
Qed.

Lemma evaluate_again pi e ar :
  evaluate re_search re_findall (evaluate re_search re_findall pi e ar).1 e ar
  = evaluate re_search re_findall pi e ar.
Proof.
  apply injective_projections.
  - rewrite !evaluate_fst.
    destruct (negb _ || _); [done|apply name_written_idem].
  - rewrite evaluate_fst. destruct (negb _ || _); [done|].
    symmetry. apply evaluate_verdict_agree; [apply name_written_agree|].
    intros Hb. unfold name_written. by rewrite Hb.
Qed.

Lemma analyze_resume_complete result judge :
  application_complete (analyze_resume re_findall json_loads result judge) = Some true ->
  missing_information (analyze_resume re_findall json_loads result judge) = Some [].
Proof.
  unfold analyze_resume. destruct judge as [text|]; [|done].
  destruct (if Str.contains _ text then _ else _) as [| |mi]; cbn; [|done|].
  - case_bool_decide as Hm; [by rewrite Hm|done].
  - case_bool_decide as Hm; [by rewrite Hm|done].
Qed.

Lemma analysis_after_append_verdict e ar :
  missing_information (analysis_after_append re_search e ar) = missing_information ar
  /\ application_complete (analysis_after_append re_search e ar)
     = application_complete ar.
Proof.
  unfold analysis_after_append.
  destruct (extracted ar) as [ei|]; [|done].
  by destruct (l ← education ei; truthy_list l).
Qed.

Lemma education_key_suffices pi e ar :
  "Education" ∈ dom pi -> education_missing pi e ar = Some false.
Proof. intros Hd. unfold education_missing. by rewrite bool_decide_eq_true_2. Qed.


(** The flag follows the list, and the field map counts by its
    required keys: on the analysis that [analyze_resume] hands over, the
    verdict of [generate_response] has its complete flag true if and only
    if its missing list is empty; and two field maps with the same
    required keys get the same verdict, so keys outside the six required
    names never change it. *)
Theorem verdict_complete_iff_nothing_missing pi pi' e result judge v :
  agree_on_required pi pi' ->
  (evaluate re_search re_findall pi e
     (analysis_after_append re_search e
        (analyze_resume re_findall json_loads result judge))).2 = Some v ->
  (complete v = true <-> missing v = [])
  /\ (evaluate re_search re_findall pi' e
        (analysis_after_append re_search e
           (analyze_resume re_findall json_loads result judge))).2 = Some v.
Proof.
  intros Hag Hv. split.
  - revert Hv. unfold evaluate.
    destruct (negb (greeting_name_defined e _)); [done|].
    destruct (analysis_after_append_verdict e
                (analyze_resume re_findall json_loads result judge)) as [-> ->].
    destruct (application_complete _) as [[|]|] eqn:Hc; cbn.
    + rewrite (analyze_resume_complete _ _ Hc). by intros [= <-].
    + destruct (education_missing _ _ _); [|done].
      intros [= <-]. cbn. apply bool_decide_eq_true.
    + destruct (education_missing _ _ _); [|done].
      intros [= <-]. cbn. apply bool_decide_eq_true.
  - rewrite <- Hv. symmetry. apply evaluate_verdict_agree.
    + by apply agree_on_required_off_name.
    + intros _. apply Hag. unfold required_names. by left.
Qed.

(** C5 (as the code has it): with the replies of the language model
    fixed, a second evaluation of the same mail on the ledger that the
    first evaluation left returns the same verdict and leaves the ledger
    as it is. *)
Theorem evaluation_repeats_on_same_replies c e ar :
  evaluate_thread re_search re_findall
    (evaluate_thread re_search re_findall c e ar).1 e ar
  = evaluate_thread re_search re_findall c e ar.
Proof.
  unfold evaluate_thread, get_provided_information.
  destruct (provided_information c !! thread_id e) as [m|] eqn:Hm; cbn.
  - pose proof (evaluate_again m e ar) as Hagain.
    destruct (evaluate re_search re_findall m e ar) as [m' v] eqn:Hev.
    cbn in *. rewrite lookup_insert_eq. cbn. rewrite Hagain.
    by rewrite insert_insert_eq.
  - destruct (evaluate re_search re_findall ∅ e ar) as [m' v] eqn:Hev.
    cbn. rewrite Hm. cbn. by rewrite Hev.
Qed.

End ScreeningFacts.

(** ** The properties on the sample inputs *)

Lemma sample_maps_agree :
  Screening.agree_on_required Sample.six_fields Sample.six_fields_and_portfolio.
Proof.
  intros n Hn. unfold Sample.six_fields_and_portfolio.
  symmetry. apply dom_insert_other. intros <-.
  unfold required_names in Hn.
  repeat (apply elem_of_cons in Hn as [Hn|Hn]; [discriminate|]).
  by apply elem_of_nil in Hn.
Qed.

Lemma sample_verdict :
  (Screening.evaluate Sample.no_match Sample.no_matches Sample.six_fields Sample.mail
     (Screening.analysis_after_append Sample.no_match Sample.mail
        (Screening.analyze_resume Sample.no_matches Sample.not_json
                                  empty_result None))).2
  = Some (Verdict [] true).
Proof. vm_compute. reflexivity. Qed.


(** C1, at the failing input: the field map has all six required keys,
    and its education is one entry whose description is "not specified in
    resume", a negative assertion by the code's own phrase list; the
    evaluation finds the key, looks no further, and declares the
    application complete with nothing missing. *)
Theorem education_key_hides_negative_entry :
  Sample.six_fields !! "Education" = Some (VEntries Sample.absent_education)
  /\ Screening.negative_description (Str.lower "not specified in resume") = true
  /\ Screening.education_missing Sample.six_fields Sample.mail empty_result
     = Some false
  /\ (Screening.evaluate Sample.no_match Sample.no_matches Sample.six_fields
        Sample.mail empty_result).2
     = Some (Verdict [] true).
Proof. vm_compute. repeat split. Qed.

Lemma verdict_complete_iff_nothing_missing_witness :
  Screening.agree_on_required Sample.six_fields Sample.six_fields_and_portfolio
  /\ ((complete (Verdict [] true) = true <-> missing (Verdict [] true) = [])
      /\ (Screening.evaluate Sample.no_match Sample.no_matches
            Sample.six_fields_and_portfolio Sample.mail
            (Screening.analysis_after_append Sample.no_match Sample.mail
               (Screening.analyze_resume Sample.no_matches Sample.not_json
                                         empty_result None))).2
         = Some (Verdict [] true)).
Proof.
  split; [exact sample_maps_agree|].
  exact (verdict_complete_iff_nothing_missing
           Sample.no_match Sample.no_matches Sample.not_json
           Sample.six_fields Sample.six_fields_and_portfolio Sample.mail
           empty_result None (Verdict [] true) sample_maps_agree sample_verdict).
Defined.

(** C4, at the failing input: the field map has all six required keys
    and the judge names the optional field Portfolio as missing.  When
    the reply is JSON, [analyze_resume] takes its list as it is, and the
    verdict is incomplete with Portfolio as its one missing item.  When
    the reply says the same in a sentence, the fallback of
    [analyze_resume] keeps the six required names only, as the fallback
    of [generate_response] does, and the verdict is complete. *)
Theorem json_list_skips_the_required_names_filter :
  Forall (fun n => is_Some (Sample.six_fields !! n)) required_names
  /\ Sample.portfolio ∈ optional_information
  /\ (name Sample.portfolio ∉ required_names)
  /\ missing_information
       (Screening.analyze_resume Cases.findall_reply Cases.loads_reply empty_result
          (Some Cases.portfolio_json))
     = Some [Sample.portfolio]
  /\ (Screening.evaluate Sample.no_match Cases.findall_reply Sample.six_fields
        Sample.mail
        (Screening.analysis_after_append Sample.no_match Sample.mail
           (Screening.analyze_resume Cases.findall_reply Cases.loads_reply
              empty_result (Some Cases.portfolio_json)))).2
     = Some (Verdict [Sample.portfolio] false)
  /\ map (fun pattern => Cases.findall_reply pattern Cases.portfolio_prose)
         Screening.fallback_patterns
     = [["Portfolio"]; []; []; []]
  /\ missing_information
       (Screening.analyze_resume Cases.findall_reply Cases.loads_reply empty_result
          (Some Cases.portfolio_prose))
     = Some []
  /\ (Screening.evaluate Sample.no_match Cases.findall_reply Sample.six_fields
        Sample.mail
        (Screening.analysis_after_append Sample.no_match Sample.mail
           (Screening.analyze_resume Cases.findall_reply Cases.loads_reply
              empty_result (Some Cases.portfolio_prose)))).2
     = Some (Verdict [] true).
Proof.
  split; [|split; [|split]].
  - unfold required_names. repeat constructor; vm_compute; eexists; reflexivity.
  - unfold optional_information, Sample.portfolio. by left.
  - unfold required_names. cbn. intros Hn.
    repeat (apply elem_of_cons in Hn as [Hn|Hn]; [discriminate|]).
    by apply elem_of_nil in Hn.
  - repeat split; vm_compute; reflexivity.
Qed.

(** C5 fails as stated: the field map, the requirements and the mail
    are the same, and two replies of the judge give two verdicts. *)
Lemma verdict_changes_with_the_reply :
  (complete <$>
     (Screening.evaluate Sample.no_match Sample.no_matches Sample.first_mail_info
        Sample.mail
        (Screening.analyze_resume Sample.no_matches Sample.not_json empty_result
           (Some "The application is complete."))).2)
  = Some true
  /\ (complete <$>
        (Screening.evaluate Sample.no_match Sample.no_matches Sample.first_mail_info
           Sample.mail
           (Screening.analyze_resume Sample.no_matches Sample.not_json empty_result
              (Some "Something is still open."))).2)
     = Some false.
Proof. vm_compute. split; reflexivity. Qed.

(** ** The cache directory and the summaries *)

Section ArchiveFacts.
Import Ledger Archive.
Implicit Types (st : ConversationManager * disk) (t : string) (cm : ConversationManager).

Lemma endswith_app (suffix s : string) : endswith suffix (s ++ suffix) = true.
Proof.
  induction s as [|c s IH].
  - change ("" ++ suffix) with suffix.
    destruct suffix; cbn -[String.eqb]; by rewrite String.eqb_refl.
  - change (String c s ++ suffix) with (String c (s ++ suffix)).
    cbn -[String.eqb]. rewrite IH. apply orb_true_r.
Qed.

Lemma prefix_dot (c : ascii) (r r' : string) :
  String.prefix "." (String c r) = String.prefix "." (String c r').
Proof.
  change (String.prefix "." (String c r))
    with (if ascii_dec "."%char c then String.prefix "" r else false).
  change (String.prefix "." (String c r'))
    with (if ascii_dec "."%char c then String.prefix "" r' else false).
  destruct (ascii_dec "."%char c); [by destruct r, r'|done].
Qed.

Lemma before_first_dot (t rest : string) :
  Str.contains "." t = false -> Str.before_first "." (t ++ "." ++ rest) = t.
Proof.
  induction t as [|c t IH]; intros Hn.
  - change ("" ++ "." ++ rest) with (String "."%char rest). by destruct rest.
  - cbn [Str.contains] in Hn. apply orb_false_iff in Hn as [Hp Hc].
    change (String c t ++ "." ++ rest) with (String c (t ++ "." ++ rest)).
    cbn [Str.before_first]. rewrite (prefix_dot c _ t), Hp. by rewrite IH.
Qed.

Lemma simple_id_no_dot t : simple_id t = true -> Str.contains "." t = false.
Proof.
  unfold simple_id. intros H. apply andb_true_iff in H as [H _].
  apply andb_true_iff in H as [H _]. by apply negb_true_iff.
Qed.

Lemma load_file_saved cm t f :
  simple_id t = true -> f <> Truncated ->
  exists messages info,
    f = Saved messages info
    /\ load_file cm (file_name t) (read f)
       = Some (Manager (<[t := messages]> (active_threads cm))
                       (<[t := info]> (provided_information cm))).
Proof.
  intros Ht Hf. destruct f as [messages info|]; [|done].
  exists messages, info. split; [done|].
  unfold load_file, file_name. rewrite endswith_app.
  change (t ++ ".json") with (t ++ "." ++ "json").
  rewrite before_first_dot by by apply simple_id_no_dot. done.
Qed.

Lemma load_files_listing (kvs : list (string * file)) cm t :
  NoDup kvs.*1 ->
  Forall (fun tf => simple_id tf.1 = true /\ tf.2 <> Truncated) kvs ->
  active_threads (load_files cm (listing kvs)) !! t
  = match (list_to_map kvs : disk) !! t with
    | Some f => messages_of f
    | None => active_threads cm !! t
    end
  /\ provided_information (load_files cm (listing kvs)) !! t
     = match (list_to_map kvs : disk) !! t with
       | Some f => information_of f
       | None => provided_information cm !! t
       end.
Proof.
  revert cm. induction kvs as [|[k f] kvs IH]; intros cm Hnd Hall.
  - cbn. by rewrite lookup_empty.
  - apply NoDup_cons in Hnd as [Hk Hnd].
    apply Forall_cons in Hall as [[Hs Hf] Hall]. cbn [fst snd] in *.
    destruct (load_file_saved cm k f Hs Hf) as (messages & info & -> & Hload).
    unfold listing. rewrite fmap_cons. cbn [fst snd load_files].
    unfold listing in IH. rewrite Hload.
    destruct (IH (Manager (<[k:=messages]> (active_threads cm))
                          (<[k:=info]> (provided_information cm))) Hnd Hall)
      as [-> ->].
    cbn [list_to_map foldr fst snd uncurry active_threads provided_information].
    destruct (decide (k = t)) as [->|Hne].
    + rewrite (not_elem_of_list_to_map_1 kvs t Hk), !lookup_insert_eq. done.
    + rewrite !lookup_insert_ne by done. done.
Qed.

Lemma load_listdir (d : disk) files t :
  intact d -> files ≡ₚ listdir d ->
  active_threads (load_files init files) !! t = d !! t ≫= messages_of
  /\ provided_information (load_files init files) !! t = d !! t ≫= information_of.
Proof.
  intros Hd Hp. unfold listdir, listing in Hp.
  apply Permutation_map_inv in Hp as (kvs & -> & Hp).
  assert (Hnd : NoDup kvs.*1).
  { rewrite <- Hp. apply NoDup_fst_map_to_list. }
  assert (Hall : Forall (fun tf => simple_id tf.1 = true /\ tf.2 <> Truncated) kvs).
  { apply Forall_forall. intros [k f] Hin. apply (Hd k f).
    apply elem_of_map_to_list. by rewrite Hp. }
  destruct (load_files_listing kvs init t Hnd Hall) as [Ha Hi].
  assert (Hmap : (list_to_map kvs : disk) = d).
  { transitivity (list_to_map (map_to_list d) : disk);
      [|apply list_to_map_to_list].
    symmetry. apply list_to_map_proper; [apply NoDup_fst_map_to_list|exact Hp]. }
  rewrite Hmap in Ha, Hi. unfold init in Ha, Hi.
  cbn [active_threads provided_information] in Ha, Hi.
  rewrite lookup_empty in Ha. rewrite lookup_empty in Hi.
  split; [etransitivity; [exact Ha|]|etransitivity; [exact Hi|]];
    by destruct (d !! t).
Qed.

(** Start-up restores what the bot saved: when every file of the cache
    directory is a whole document under a simple thread id, then, in
    whatever order [os.listdir] names the files, [load_all_conversations]
    leaves every thread with the messages and the field map of its file,
    and no other thread. *)
Theorem load_restores_saved_threads (d : disk) files t :
  intact d -> files ≡ₚ listdir d ->
  active_threads (load_all_conversations (Some files)) !! t = d !! t ≫= messages_of
  /\ provided_information (load_all_conversations (Some files)) !! t
     = d !! t ≫= information_of.
Proof. apply load_listdir. Qed.

Lemma load_files_stops cm before file after :
  Forall readable before -> endswith ".json" file = true ->
  load_files cm (before ++ (file, Unreadable) :: after) = load_files cm before.
Proof.
  revert cm. induction before as [|[f doc] before IH]; intros cm Hall Hf.
  - cbn. unfold load_file. by rewrite Hf.
  - apply Forall_cons in Hall as [Hr Hall]. cbn [app load_files].
    destruct (load_file cm f doc) as [cm'|] eqn:Hl; [by apply IH|done].
Qed.

(** A file that cannot be read ends the loading: the threads of the
    files that [os.listdir] names after it are not loaded, readable or
    not; the threads loaded before it stay. *)
Theorem unreadable_file_ends_loading before file after :
  Forall readable before -> endswith ".json" file = true ->
  load_all_conversations (Some (before ++ (file, Unreadable) :: after)%list)
  = load_all_conversations (Some before).
Proof. apply load_files_stops. Qed.

Lemma complete_written_file t st :
  active_threads st.1 !! t <> None ->
  (complete_conversation t Written st).2 !! t
  = Some (Saved (get_conversation_history st.1 t) (get_provided_information st.1 t)).
Proof.
  destruct st as [m d]. cbn [fst]. intros Ha.
  unfold complete_conversation, get_conversation_history, save_conversation.
  destruct (active_threads m !! t) as [h|] eqn:Ht; [|done]. cbn.
  by rewrite lookup_insert_eq.
Qed.

(** A completed thread is active again after a restart:
    [complete_conversation] takes the thread out of memory and leaves
    its file, so the next [load_all_conversations] puts the whole history
    and the field map back. *)
Theorem completed_thread_returns_at_restart t st files :
  active_threads st.1 !! t <> None ->
  intact (complete_conversation t Written st).2 ->
  files ≡ₚ listdir (complete_conversation t Written st).2 ->
  get_conversation_history (complete_conversation t Written st).1 t = []
  /\ get_conversation_history (load_all_conversations (Some files)) t
     = get_conversation_history st.1 t
  /\ get_provided_information (load_all_conversations (Some files)) t
     = get_provided_information st.1 t.
Proof.
  intros Ha Hd Hp.
  destruct (load_listdir _ files t Hd Hp) as [Hm Hi].
  rewrite (complete_written_file t st Ha) in Hm, Hi. cbn in Hm, Hi.
  split; [|split].
  - destruct st as [m d]. cbn [fst] in *.
    unfold complete_conversation, get_conversation_history.
    destruct (active_threads m !! t); [|done]. cbn. by rewrite lookup_delete_eq.
  - unfold load_all_conversations.
    unfold get_conversation_history at 1. by rewrite Hm.
  - unfold load_all_conversations.
    unfold get_provided_information at 1. by rewrite Hi.
Qed.

Lemma add_message_written_file t r c pi now st :
  (add_message t r c pi now Written st).2 !! t
  = Some (Saved (get_conversation_history (add_message t r c pi now Written st).1 t)
                (get_provided_information (add_message t r c pi now Written st).1 t)).
Proof.
  pose proof (active_after_add_message t r c pi now Written st) as Ha.
  destruct st as [m d].
  unfold add_message in *. cbn [fst snd] in *.
  unfold save_conversation. rewrite Ha. by rewrite lookup_insert_eq.
Qed.

Lemma complete_history_empty t out st :
  get_conversation_history (complete_conversation t out st).1 t = [].
Proof.
  destruct st as [m d]. unfold complete_conversation, get_conversation_history.
  destruct (active_threads m !! t) eqn:Ht; cbn.
  - by rewrite lookup_delete_eq.
  - by rewrite Ht.
Qed.

Lemma complete_keeps_information t out st :
  provided_information (complete_conversation t out st).1 = provided_information st.1.
Proof.
  destruct st as [m d]. unfold complete_conversation.
  by destruct (active_threads m !! t).
Qed.

(** A mail on a completed thread replaces the archive and keeps the
    field map: the thread was taken out of memory, so [add_message]
    starts it anew, and its save writes a file that holds the new turn
    alone; the turns that the file held are gone.  The cumulative map of
    the thread is the one from before the completion, updated with the
    dictionary of the turn when that is an applicant's, and it is the map
    that the file holds. *)
Theorem turn_after_complete_replaces_archive t r c pi now out st :
  exists m,
    role m = r /\ content m = c /\ timestamp m = now
    /\ get_conversation_history
         (add_message t r c pi now Written (complete_conversation t out st)).1 t = [m]
    /\ get_provided_information (complete_conversation t out st).1 t
       = get_provided_information st.1 t
    /\ get_provided_information
         (add_message t r c pi now Written (complete_conversation t out st)).1 t
       = (if String.eqb r "applicant"
          then dict_update (get_provided_information st.1 t) (default ∅ pi)
          else get_provided_information st.1 t)
    /\ (add_message t r c pi now Written (complete_conversation t out st)).2 !! t
       = Some (Saved [m]
                 (if String.eqb r "applicant"
                  then dict_update (get_provided_information st.1 t) (default ∅ pi)
                  else get_provided_information st.1 t)).
Proof.
  destruct (history_after_add_message t r c pi now Written
              (complete_conversation t out st)) as (m & Hr & Hc & Hn & Hh).
  rewrite complete_history_empty in Hh. cbn in Hh.
  assert (Hkept : get_provided_information (complete_conversation t out st).1 t
                  = get_provided_information st.1 t).
  { unfold get_provided_information. by rewrite complete_keeps_information. }
  pose proof (cumulative_add_message t r c pi now Written
                (complete_conversation t out st)) as Hcum.
  unfold cumulative in Hcum. rewrite Hkept in Hcum.
  exists m. repeat split; try done.
  by rewrite add_message_written_file, Hh, Hcum.
Qed.

(** [update_provided_information] saves nothing for a thread that has no
    history in memory: the merge is done in memory, and no file is
    written or changed, whatever the disk would do. *)
Theorem update_without_history_writes_no_file t pi out st :
  active_threads st.1 !! t = None ->
  (update_provided_information t pi out st).2 = st.2
  /\ get_provided_information (update_provided_information t pi out st).1 t
     = dict_update (get_provided_information st.1 t) pi.
Proof.
  destruct st as [m d]. cbn [fst snd]. intros Ha. split.
  - unfold update_provided_information, save_conversation. cbn. by rewrite Ha.
  - apply (cumulative_update t pi out (m, d)).
Qed.

(** Only a turn of the applicant that carries a dictionary with a key
    merges: [add_message] with another role, without a dictionary or
    with the empty one leaves the field map of every thread as it was,
    and the message it stores carries no provided information. *)
Theorem only_applicant_turns_merge t t' r c pi now out st :
  r <> "applicant" \/ pi = None \/ pi = Some ∅ ->
  get_provided_information (add_message t r c pi now out st).1 t'
  = get_provided_information st.1 t'
  /\ (forall m, last (get_conversation_history (add_message t r c pi now out st).1 t)
                = Some m -> msg_provided_information m = None).
Proof.
  intros Hno. destruct st as [m d].
  assert (Hmerges : match pi with
                    | Some pi => negb (bool_decide (pi = ∅)) && String.eqb r "applicant"
                    | None => false
                    end = false).
  { destruct Hno as [Hr|[->| ->]]; [|done|].
    - destruct pi; [|done]. apply andb_false_iff. right.
      by apply String.eqb_neq.
    - by rewrite bool_decide_eq_true_2. }
  unfold add_message, get_provided_information, get_conversation_history.
  cbn [fst active_threads provided_information]. rewrite Hmerges. split.
  - destruct (provided_information m !! t) eqn:Hi; [done|].
    destruct (decide (t = t')) as [<-|Hne].
    + by rewrite lookup_insert_eq, Hi.
    + by rewrite lookup_insert_ne.
  - intros msg. rewrite lookup_insert_eq. cbn [from_option id].
    rewrite last_snoc. by intros [= <-].
Qed.

Lemma get_provided_information_other cm cm' t t' :
  (forall k, k <> t -> provided_information cm' !! k = provided_information cm !! k) ->
  t' <> t -> get_provided_information cm' t' = get_provided_information cm t'.
Proof. intros H Hne. unfold get_provided_information. by rewrite H. Qed.

Lemma add_message_other t t' r c pi now out st :
  t' <> t ->
  active_threads (add_message t r c pi now out st).1 !! t' = active_threads st.1 !! t'
  /\ get_provided_information (add_message t r c pi now out st).1 t'
     = get_provided_information st.1 t'.
Proof.
  intros Hne. destruct st as [m d].
  unfold add_message, get_provided_information.
  cbn [fst active_threads provided_information]. split.
  - rewrite lookup_insert_ne by done.
    destruct (active_threads m !! t); [done|]. by rewrite lookup_insert_ne.
  - destruct (match pi with Some _ => _ | None => _ end);
      rewrite ?lookup_insert_ne by done;
      destruct (provided_information m !! t); rewrite ?lookup_insert_ne by done; done.
Qed.

Lemma update_other t t' pi out st :
  t' <> t ->
  get_provided_information (update_provided_information t pi out st).1 t'
  = get_provided_information st.1 t'.
Proof.
  intros Hne. destruct st as [m d].
  unfold update_provided_information, get_provided_information.
  cbn [fst provided_information]. rewrite lookup_insert_ne by done.
  destruct (provided_information m !! t); [done|]. by rewrite lookup_insert_ne.
Qed.

Lemma mirrored_step c st :
  outcome_of c = Written -> mirrored st -> mirrored (run_call c st).
Proof.
  intros Hout Hst t' messages.
  destruct c as [t r content pi now out|t pi out|t out]; cbn in Hout; subst out;
    cbn [run_call].
  - destruct (decide (t' = t)) as [->|Hne].
    + intros Hm. exists messages. split; [|done].
      pose proof (active_after_add_message t r content pi now Written st) as Ha.
      rewrite Ha in Hm. injection Hm as <-.
      apply add_message_written_file.
    + destruct (add_message_other t t' r content pi now Written st Hne) as [Ha Hi].
      rewrite Ha, Hi. intros Hm.
      destruct (Hst t' messages Hm) as (saved & Hd & Hs).
      exists saved. split; [|done]. rewrite <- Hd.
      destruct st as [m d]. unfold add_message. cbn [snd].
      unfold save_conversation. cbn [active_threads].
      rewrite lookup_insert_eq. by rewrite lookup_insert_ne.
  - destruct (decide (t' = t)) as [->|Hne].
    + destruct st as [m d]. unfold update_provided_information.
      cbn [fst snd active_threads]. intros Hm. exists messages. split; [|done].
      unfold save_conversation. cbn [active_threads]. rewrite Hm.
      by rewrite lookup_insert_eq.
    + rewrite (update_other t t' pi Written st Hne).
      destruct st as [m d]. unfold update_provided_information.
      cbn [fst snd active_threads]. intros Hm.
      destruct (Hst t' messages Hm) as (saved & Hd & Hs). cbn [fst snd] in Hd.
      exists saved. split; [|done]. rewrite <- Hd. unfold save_conversation.
      cbn [active_threads]. destruct (active_threads m !! t); [|done].
      by rewrite lookup_insert_ne.
  - destruct st as [m d]. unfold complete_conversation.
    destruct (active_threads m !! t) as [h|] eqn:Ht; [|apply Hst].
    cbn [fst snd active_threads]. intros Hm.
    apply lookup_delete_Some in Hm as [Hne Hm].
    destruct (Hst t' messages Hm) as (saved & Hd & Hs). cbn [fst snd] in Hd.
    exists saved. split; [|done].
    unfold save_conversation. rewrite Ht, lookup_insert_ne by done.
    exact Hd.
Qed.

(** While the disk takes every write, the files mirror memory: if the
    file of every active thread holds the turns of the thread in memory,
    by role, content and time stamp, and the field map that memory holds
    of it, this is so again after any sequence of [add_message],
    [update_provided_information] and [complete_conversation]. *)
Theorem files_mirror_memory cs st :
  mirrored st ->
  Forall (fun c => outcome_of c = Written) cs ->
  mirrored (run_calls cs st).
Proof.
  intros Hst Hall. revert st Hst.
  induction Hall as [|c cs Hc _ IH]; intros st Hst; [done|].
  apply IH. by apply mirrored_step.
Qed.

Lemma count_role_snoc r h m :
  count_role r (h ++ [m])%list
  = count_role r h + (if decide (role m = r) then 1 else 0).
Proof.
  unfold count_role. rewrite filter_app, length_app, filter_cons, filter_nil.
  by destruct (decide (role m = r)).
Qed.

Lemma count_roles_bound h :
  count_role "applicant" h + count_role "system" h <= length h.
Proof.
  unfold count_role. induction h as [|m h IH]; [done|].
  rewrite !filter_cons. cbn [length].
  destruct (decide (role m = "applicant")) as [Ha|Ha],
           (decide (role m = "system")) as [Hs|Hs]; cbn [length]; try lia.
  rewrite Ha in Hs. discriminate.
Qed.

(** The summary of a thread follows its turns: after [add_message] the
    thread has a summary, whose message count is one more than the
    history held, whose counter of the role of the turn, and no other, is
    one more, and whose last message is the new turn; the turns of
    applicant and system never count for more than the message count. *)
Theorem summary_counts_the_new_turn t r c pi now out st :
  exists s,
    get_thread_summary (add_message t r c pi now out st).1 t = Some s
    /\ message_count s = S (length (get_conversation_history st.1 t))
    /\ applicant_messages s
       = count_role "applicant" (get_conversation_history st.1 t)
         + (if decide (r = "applicant") then 1 else 0)
    /\ system_messages s
       = count_role "system" (get_conversation_history st.1 t)
         + (if decide (r = "system") then 1 else 0)
    /\ last_message_time s = Some now
    /\ last_message_role s = Some r
    /\ applicant_messages s + system_messages s <= message_count s.
Proof.
  destruct (history_after_add_message t r c pi now out st) as (m & Hr & _ & Hn & Hh).
  unfold get_thread_summary.
  rewrite (active_after_add_message t r c pi now out st), Hh. cbn.
  eexists. split; [reflexivity|]. cbn.
  rewrite !count_role_snoc, length_app, last_snoc. cbn. rewrite Hr, Hn.
  repeat split; try lia.
  pose proof (count_roles_bound (get_conversation_history st.1 t ++ [m])) as Hb.
  rewrite !count_role_snoc, length_app, Hr in Hb. exact Hb.
Qed.

(** [complete_conversation] takes an active thread out of the summaries:
    the thread has no summary any more, and the number of active threads
    is one less. *)
Theorem complete_drops_thread_from_summaries t out st :
  active_threads st.1 !! t <> None ->
  get_thread_summary (complete_conversation t out st).1 t = None
  /\ S (get_active_thread_count (complete_conversation t out st).1)
     = get_active_thread_count st.1.
Proof.
  destruct st as [m d]. cbn [fst]. intros Ha.
  unfold complete_conversation, get_thread_summary, get_active_thread_count.
  destruct (active_threads m !! t) as [h|] eqn:Ht; [|done].
  cbn [fst active_threads]. rewrite lookup_delete_eq. split; [done|].
  rewrite map_size_delete, Ht.
  assert (size (active_threads m) <> 0); [|lia].
  intros Hz. apply map_size_empty_iff in Hz. by rewrite Hz, lookup_empty in Ht.
Qed.

End ArchiveFacts.

(** The ledger properties on the sample inputs *)

Lemma intact_singleton t messages info :
  Archive.simple_id t = true ->
  Archive.intact ({[ t := Ledger.Saved messages info ]} : Ledger.disk).
Proof.
  intros Ht k f [<- <-]%lookup_singleton_Some. by split.
Qed.

Lemma sample_archive :
  (Sample.first_mail Ledger.Written).2
  = {[ "t1" := Ledger.Saved
                 (Ledger.get_conversation_history (Sample.first_mail Ledger.Written).1 "t1")
                 Sample.first_mail_info ]}.
Proof. vm_compute. reflexivity. Qed.

Lemma sample_archive_completed :
  (Ledger.complete_conversation "t1" Ledger.Written (Sample.first_mail Ledger.Written)).2
  = (Sample.first_mail Ledger.Written).2.
Proof. vm_compute. reflexivity. Qed.

Lemma sample_archive_intact : Archive.intact (Sample.first_mail Ledger.Written).2.
Proof. rewrite sample_archive. by apply intact_singleton. Qed.

Lemma load_restores_saved_threads_witness :
  Archive.intact (Sample.first_mail Ledger.Written).2
  /\ Archive.listdir (Sample.first_mail Ledger.Written).2
     ≡ₚ Archive.listdir (Sample.first_mail Ledger.Written).2
  /\ Ledger.active_threads
       (Archive.load_all_conversations
          (Some (Archive.listdir (Sample.first_mail Ledger.Written).2))) !! "t1"
     = (Sample.first_mail Ledger.Written).2 !! "t1" ≫= Archive.messages_of.
Proof.
  split; [exact sample_archive_intact|]. split; [reflexivity|].
  exact (proj1 (load_restores_saved_threads (Sample.first_mail Ledger.Written).2
                  (Archive.listdir (Sample.first_mail Ledger.Written).2) "t1"
                  sample_archive_intact (reflexivity _))).
Defined.

Lemma sample_listing_readable :
  Forall Archive.readable [("t1.json", Archive.Conversation [] None)].
Proof. repeat constructor. intros _. discriminate. Qed.

Lemma unreadable_file_ends_loading_witness :
  Forall Archive.readable [("t1.json", Archive.Conversation [] None)]
  /\ Archive.endswith ".json" "t2.json" = true
  /\ Archive.load_all_conversations
       (Some ([("t1.json", Archive.Conversation [] None)]
              ++ ("t2.json", Archive.Unreadable)
                 :: [("t3.json", Archive.MessageList [])])%list)
     = Archive.load_all_conversations
         (Some [("t1.json", Archive.Conversation [] None)]).
Proof.
  split; [exact sample_listing_readable|]. split; [reflexivity|].
  exact (unreadable_file_ends_loading
           [("t1.json", Archive.Conversation [] None)] "t2.json"
           [("t3.json", Archive.MessageList [])]
           sample_listing_readable eq_refl).
Defined.

Lemma sample_thread_active :
  Ledger.active_threads (Sample.first_mail Ledger.Written).1 !! "t1" <> None.
Proof. vm_compute. discriminate. Qed.

Lemma sample_archive_completed_intact :
  Archive.intact
    (Ledger.complete_conversation "t1" Ledger.Written
       (Sample.first_mail Ledger.Written)).2.
Proof. rewrite sample_archive_completed. exact sample_archive_intact. Qed.

Lemma completed_thread_returns_at_restart_witness :
  Ledger.active_threads (Sample.first_mail Ledger.Written).1 !! "t1" <> None
  /\ Ledger.get_conversation_history
       (Ledger.complete_conversation "t1" Ledger.Written
          (Sample.first_mail Ledger.Written)).1 "t1" = []
  /\ Ledger.get_conversation_history
       (Archive.load_all_conversations
          (Some (Archive.listdir
                   (Ledger.complete_conversation "t1" Ledger.Written
                      (Sample.first_mail Ledger.Written)).2))) "t1"
     = Ledger.get_conversation_history (Sample.first_mail Ledger.Written).1 "t1"
  /\ Ledger.get_provided_information
       (Archive.load_all_conversations
          (Some (Archive.listdir
                   (Ledger.complete_conversation "t1" Ledger.Written
                      (Sample.first_mail Ledger.Written)).2))) "t1"
     = Ledger.get_provided_information (Sample.first_mail Ledger.Written).1 "t1".
Proof.
  split; [exact sample_thread_active|].
  exact (completed_thread_returns_at_restart "t1" (Sample.first_mail Ledger.Written)
           _ sample_thread_active sample_archive_completed_intact (reflexivity _)).
Defined.

Lemma update_without_history_writes_no_file_witness :
  Ledger.active_threads (Ledger.init, (∅ : Ledger.disk)).1 !! "t1" = None
  /\ (Ledger.update_provided_information "t1" Sample.first_mail_info Ledger.Written
        (Ledger.init, ∅)).2 = ∅
  /\ Ledger.get_provided_information
       (Ledger.update_provided_information "t1" Sample.first_mail_info Ledger.Written
          (Ledger.init, ∅)).1 "t1"
     = Ledger.dict_update (Ledger.get_provided_information Ledger.init "t1")
                          Sample.first_mail_info.
Proof.
  split; [reflexivity|].
  exact (update_without_history_writes_no_file "t1" Sample.first_mail_info
           Ledger.Written (Ledger.init, ∅) eq_refl).
Defined.

Lemma system_is_not_applicant : "system" <> "applicant".
Proof. discriminate. Qed.

Lemma only_applicant_turns_merge_witness :
  "system" <> "applicant"
  /\ Ledger.get_provided_information
       (Ledger.add_message "t1" "system" "Dear Ann, thank you."
          (Some Sample.first_mail_info) "2025-01-01T09:00:05" Ledger.Written
          (Sample.first_mail Ledger.Written)).1 "t1"
     = Ledger.get_provided_information (Sample.first_mail Ledger.Written).1 "t1".
Proof.
  split; [exact system_is_not_applicant|].
  exact (proj1 (only_applicant_turns_merge "t1" "t1" "system" "Dear Ann, thank you."
                  (Some Sample.first_mail_info) "2025-01-01T09:00:05" Ledger.Written
                  (Sample.first_mail Ledger.Written)
                  (or_introl system_is_not_applicant))).
Defined.

Lemma empty_ledger_mirrored : Archive.mirrored (Ledger.init, ∅).
Proof. intros t messages H. cbn in H. by rewrite lookup_empty in H. Qed.

Lemma sample_calls_written :
  Forall (fun c => Archive.outcome_of c = Ledger.Written)
    [ Archive.Add "t1" "applicant" "Please find my application attached."
        (Some Sample.first_mail_info) "2025-01-01T09:00:00" Ledger.Written;
      Archive.Update "t1" {[ "Resume/CV" := VBool true ]} Ledger.Written;
      Archive.Complete "t1" Ledger.Written ].
Proof. repeat constructor. Qed.

Lemma files_mirror_memory_witness :
  Archive.mirrored (Ledger.init, ∅)
  /\ Archive.mirrored
       (Archive.run_calls
          [ Archive.Add "t1" "applicant" "Please find my application attached."
              (Some Sample.first_mail_info) "2025-01-01T09:00:00" Ledger.Written;
            Archive.Update "t1" {[ "Resume/CV" := VBool true ]} Ledger.Written;
            Archive.Complete "t1" Ledger.Written ]
          (Ledger.init, ∅)).
Proof.
  split; [exact empty_ledger_mirrored|].
  exact (files_mirror_memory _ _ empty_ledger_mirrored sample_calls_written).
Defined.

Lemma complete_drops_thread_from_summaries_witness :
  Ledger.active_threads (Sample.first_mail Ledger.Written).1 !! "t1" <> None
  /\ Archive.get_thread_summary
       (Ledger.complete_conversation "t1" Ledger.Written
          (Sample.first_mail Ledger.Written)).1 "t1" = None
  /\ S (Archive.get_active_thread_count
          (Ledger.complete_conversation "t1" Ledger.Written
             (Sample.first_mail Ledger.Written)).1)
     = Archive.get_active_thread_count (Sample.first_mail Ledger.Written).1.
Proof.
  split; [exact sample_thread_active|].
  exact (complete_drops_thread_from_summaries "t1" Ledger.Written
           (Sample.first_mail Ledger.Written) sample_thread_active).
Defined.

(** ** Triage and the handling of a mail *)

Lemma contains_refl (s : string) : Str.contains s s = true.
Proof.
  destruct s; cbn; [done|].
  assert (H : forall x, String.prefix x x = true).
  { induction x as [|c x IH]; cbn; [done|].
    destruct (ascii_dec c c); [exact IH|done]. }
  change (String.prefix (String a s) (String a s) || Str.contains (String a s) s = true).
  by rewrite H.
Qed.

Lemma not_from_hr (e : email_data) :
  Str.contains HR_EMAIL (sender_email e) = false ->
  String.eqb (sender_email e) HR_EMAIL || Str.contains HR_EMAIL (sender_email e) = false.
Proof.
  intros Hc. rewrite Hc, orb_false_r. apply String.eqb_neq. intros Heq.
  rewrite Heq, contains_refl in Hc. discriminate.
Qed.

(** A strong word in the subject suffices: a mail that is not from the
    HR address and whose subject, in lower case, holds "application",
    "apply", "job" or "position" is classified as a job application,
    whatever its body and its attachments are. *)
Theorem strong_subject_is_an_application (e : email_data) :
  Str.contains HR_EMAIL (sender_email e) = false ->
  existsb (fun k => Str.contains k (Str.lower (subject e))) Triage.strong_keywords = true ->
  Triage.is_job_application (Triage.classify_email e) = true.
Proof.
  intros Hhr Hs. unfold Triage.classify_email.
  rewrite (not_from_hr e Hhr). cbv zeta. rewrite Hs.
  assert (Hsub : existsb (fun k => Str.contains k (Str.lower (subject e)))
                   Triage.subject_keywords = true).
  { unfold Triage.strong_keywords in Hs. unfold Triage.subject_keywords.
    cbn [existsb] in *.
    rewrite orb_false_r in Hs. rewrite !orb_assoc in *. by rewrite Hs. }
  rewrite Hsub. cbn. by repeat case_match.
Qed.

(** The body alone never suffices: a mail whose subject holds none of
    the subject words and none of whose attachments looks like a resume
    is not classified as a job application, whatever its body says. *)
Theorem body_alone_is_no_application (e : email_data) :
  existsb (fun k => Str.contains k (Str.lower (subject e))) Triage.subject_keywords = false ->
  existsb Triage.looks_like_resume (attachments e) = false ->
  Triage.is_job_application (Triage.classify_email e) = false.
Proof.
  intros Hs Ha. unfold Triage.classify_email.
  destruct (_ || _); [done|]. cbv zeta. rewrite Hs, Ha. cbn.
  by rewrite andb_false_r.
Qed.

Section HandlingFacts.

Import Ledger Screening Bot.

Variable re_search : bool -> string -> string -> option string.
Variable re_findall : string -> string -> list string.
Variable json_loads : string -> loads.

Lemma mark_as_read_sent ok id m : sent (mark_as_read ok id m).1 = sent m.
Proof. unfold mark_as_read. by destruct ok. Qed.

Lemma generate_response_sent o e ar w :
  sent (mbox (generate_response re_search re_findall o e ar w).1) = sent (mbox w)
  \/ (exists text,
        reply o = Some text /\ send_ok o = true
        /\ sent (mbox (generate_response re_search re_findall o e ar w).1)
           = (sent (mbox w) ++ [(thread_id e, Str.strip text)])%list).
Proof.
  unfold generate_response.
  destruct (evaluate_thread re_search re_findall (cm w) e ar) as [c [v|]];
    [|by left].
  destruct (reply o) as [text|] eqn:Hr; [|by left].
  unfold send_email_response. destruct (send_ok o) eqn:Hs; [|by left].
  right. exists text. by repeat split.
Qed.

Lemma process_job_application_sent o result e w :
  sent (mbox (process_job_application re_search re_findall json_loads o result e w))
  = sent (mbox w)
  \/ (exists text,
        reply o = Some text /\ send_ok o = true
        /\ sent (mbox (process_job_application re_search re_findall json_loads
                         o result e w))
           = (sent (mbox w) ++ [(thread_id e, Str.strip text)])%list).
Proof.
  unfold process_job_application. cbv zeta.
  destruct (normalisation_raises _ _); [by left|].
  destruct (update_provided_information _ _ _ _) as [c1 d1].
  pose proof (generate_response_sent o e
    (analysis_after_append re_search e
       (analyze_resume re_findall json_loads (fields_of result) (judge o)))
    (World c1 d1 (mbox w))) as Hg.
  destruct (generate_response _ _ _ _ _ _) as [w2 response]. cbn [fst mbox] in Hg.
  destruct (match response with Some _ => _ | None => _ end) as [c3 d3].
  pose proof (mark_as_read_sent (mark_ok o) (message_id e) (mbox w2)) as Hm.
  destruct (mark_as_read _ _ _) as [m4 b]. cbn [fst] in Hm.
  destruct (match response with Some _ => _ | None => _ end) as [c5 d5].
  cbn [mbox]. by rewrite Hm.
Qed.

(** At most one reply goes out for a mail, on the thread of the mail:
    after [process_email] the list of replies sent is as it was, or it
    is longer by one reply, which is on the thread of the mail and whose
    text is the stripped text that the model wrote; the latter needs the
    model to have answered and the send to have succeeded. *)
Theorem at_most_one_reply_on_the_thread o result e w :
  sent (mbox (process_email re_search re_findall json_loads o result e w))
  = sent (mbox w)
  \/ (exists text,
        reply o = Some text /\ send_ok o = true
        /\ sent (mbox (process_email re_search re_findall json_loads o result e w))
           = (sent (mbox w) ++ [(thread_id e, Str.strip text)])%list).
Proof.
  unfold process_email.
  destruct (_ && _); [left; cbn; apply mark_as_read_sent|].
  destruct (add_message _ _ _ _ _ _ _) as [c1 d1].
  destruct (Triage.is_job_application _); [|left; cbn; apply mark_as_read_sent].
  apply (process_job_application_sent o result e (World c1 d1 (mbox w))).
Qed.

(** A mail that is not classified as a job application gets no reply,
    and is recorded all the same: unless it is a background-check
    notification of the HR address, which changes nothing in the ledger,
    [process_email] leaves the ledger and the disk as [add_message] of
    the body, as a turn of the applicant with the fields found in the
    mail, leaves them. *)
Theorem mail_that_is_no_application_gets_no_reply o result e w :
  Triage.is_job_application (Triage.classify_email e) = false ->
  sent (mbox (process_email re_search re_findall json_loads o result e w))
  = sent (mbox w)
  /\ (cm (process_email re_search re_findall json_loads o result e w),
      dsk (process_email re_search re_findall json_loads o result e w))
     = if (String.eqb (sender_email e) HR_EMAIL
           || Str.contains HR_EMAIL (sender_email e))
          && Str.contains "Background Check Results:" (subject e)
       then (cm w, dsk w)
       else add_message (thread_id e) "applicant" (body e)
              (Some (basic_info re_search e)) (now_applicant o) (save_applicant o)
              (cm w, dsk w).
Proof.
  intros Hc. unfold process_email.
  destruct (_ && _); [split; [apply mark_as_read_sent|done]|].
  destruct (add_message _ _ _ _ _ _ _) as [c1 d1]. rewrite Hc.
  split; [apply mark_as_read_sent|done].
Qed.

End HandlingFacts.

(** ** The missing list *)

Section MissingFacts.

Import Ledger Screening Bot.

Variable re_search : bool -> string -> string -> option string.
Variable re_findall : string -> string -> list string.
Variable json_loads : string -> loads.

Implicit Types (pi : field_map) (l : list requirement) (n k : string).

Lemma elem_of_names n l : n ∈ names_of l <-> exists r, n = name r /\ r ∈ l.
Proof. apply (list_elem_of_fmap name l n). Qed.

Lemma names_without_other n k l :
  n <> k -> n ∈ names_of l -> n ∈ names_of (without k l).
Proof.
  intros Hne. unfold without. rewrite !elem_of_names.
  intros (r & -> & Hr). exists r. split; [done|].
  apply list_elem_of_filter. by split.
Qed.

Lemma names_without_absent k l : k ∉ names_of (without k l).
Proof.
  unfold without. rewrite elem_of_names.
  intros (r & -> & Hr). apply list_elem_of_filter in Hr as [Hr _]. by apply Hr.
Qed.

Lemma names_without_subset n k l :
  n ∈ names_of (without k l) -> n ∈ names_of l.
Proof.
  unfold without. rewrite !elem_of_names.
  intros (r & -> & Hr). apply list_elem_of_filter in Hr as [_ Hr]. by exists r.
Qed.

Lemma names_without_keeps_absent n k l :
  n ∉ names_of l -> n ∉ names_of (without k l).
Proof. intros Hn Hin. by apply Hn, (names_without_subset n k). Qed.

Lemma seed_of_named_list pi ar n :
  n ∈ names_of (default [] (missing_information ar)) ->
  seed_missing re_findall pi ar = default [] (missing_information ar).
Proof.
  intros Hn. unfold seed_missing. cbv zeta.
  destruct (default [] (missing_information ar)) as [|r l] eqn:Hm.
  - by apply elem_of_nil in Hn.
  - rewrite bool_decide_eq_false_2 by done.
    by rewrite bool_decide_eq_false_2 by done.
Qed.

Lemma names_filter_provided_other pi e ar l n :
  n <> "Email Address" -> n <> "Resume/CV" -> n <> "Work Experience" ->
  n <> "Full Name" ->
  n ∈ names_of l -> n ∈ names_of (filter_provided re_search pi e ar l).
Proof.
  intros H1 H2 H3 H4 Hn. unfold filter_provided. cbv zeta.
  repeat case_match; repeat (apply names_without_other; [done|]); done.
Qed.

Lemma names_filter_provided_subset pi e ar l n :
  n ∈ names_of (filter_provided re_search pi e ar l) -> n ∈ names_of l.
Proof.
  unfold filter_provided. cbv zeta. intros Hn.
  repeat case_match; repeat (apply names_without_subset in Hn); done.
Qed.

Lemma evaluate_incomplete pi e ar v :
  default false (application_complete ar) = false ->
  (evaluate re_search re_findall pi e ar).2 = Some v ->
  exists edu_missing,
    missing v
    = (let m5 := filter_provided re_search pi e ar (seed_missing re_findall pi ar) in
       if edu_missing && negb (bool_decide ("Education" ∈ names_of m5))
       then (m5 ++ [education_requirement])%list else m5)
    /\ education_missing (name_written re_search e ar pi) e ar = Some edu_missing.
Proof.
  intros Hc. unfold evaluate.
  destruct (negb (greeting_name_defined e ar)); [done|]. rewrite Hc. cbv zeta.
  destruct (education_missing _ e ar) as [b|]; [|done].
  intros [= <-]. by exists b.
Qed.

Lemma names_snoc l r n :
  n ∈ names_of (l ++ [r])%list <-> n ∈ names_of l \/ n = name r.
Proof.
  unfold names_of. rewrite map_app, elem_of_app. cbn.
  by rewrite list_elem_of_singleton.
Qed.

(** What the judge names stays asked for, four names apart: when the
    application is not complete, a name of the judge's missing list other
    than Email Address, Resume/CV, Work Experience and Full Name is in
    the missing list of the verdict, whatever the field map of the thread
    holds; so a phone number or an education that the thread has on
    record is asked for again when the judge names it. *)
Theorem judge_names_stay_asked pi e ar v n :
  default false (application_complete ar) = false ->
  (evaluate re_search re_findall pi e ar).2 = Some v ->
  n ∈ names_of (default [] (missing_information ar)) ->
  n <> "Email Address" -> n <> "Resume/CV" -> n <> "Work Experience" ->
  n <> "Full Name" ->
  n ∈ names_of (missing v).
Proof.
  intros Hc Hv Hn H1 H2 H3 H4.
  destruct (evaluate_incomplete pi e ar v Hc Hv) as (b & -> & _). cbv zeta.
  rewrite (seed_of_named_list pi ar n Hn).
  pose proof (names_filter_provided_other pi e ar _ n H1 H2 H3 H4 Hn) as Hin.
  destruct (_ && _); [|done]. apply names_snoc. by left.
Qed.

(** What the mail itself shows is not asked for: when the application
    is not complete, the missing list of the verdict does not name Email
    Address if the sender has an address or the field map has the key,
    nor Resume/CV if the mail has an attachment or the field map has the
    key, nor Work Experience if the analysis shows one, nor Full Name if
    a name was found in the sign-off or the attachment. *)
Theorem mail_evidence_is_not_asked_for pi e ar v :
  default false (application_complete ar) = false ->
  (evaluate re_search re_findall pi e ar).2 = Some v ->
  ("Email Address" ∈ dom pi \/ nonempty (sender_email e) = true ->
   "Email Address" ∉ names_of (missing v))
  /\ ("Resume/CV" ∈ dom pi \/ attachments e <> [] ->
      "Resume/CV" ∉ names_of (missing v))
  /\ (work_experience_provided ar = true ->
      "Work Experience" ∉ names_of (missing v))
  /\ (is_Some (best_name re_search e ar) -> "Full Name" ∉ names_of (missing v)).
Proof.
  intros Hc Hv.
  destruct (evaluate_incomplete pi e ar v Hc Hv) as (b & -> & _). cbv zeta.
  set (seed := seed_missing re_findall pi ar).
  assert (Hsnoc : forall n, n <> "Education" ->
            n ∉ names_of (filter_provided re_search pi e ar seed) ->
            n ∉ names_of
                  (if b && negb (bool_decide
                                   ("Education" ∈ names_of
                                      (filter_provided re_search pi e ar seed)))
                   then (filter_provided re_search pi e ar seed
                         ++ [education_requirement])%list
                   else filter_provided re_search pi e ar seed)).
  { intros n Hne Hn. destruct (_ && _); [|done].
    rewrite names_snoc. intros [Hin|Heq]; [done|]. by apply Hne. }
  repeat split.
  - intros Hev. apply Hsnoc; [done|]. unfold filter_provided. cbv zeta.
    assert (Hb : bool_decide ("Email Address" ∈ dom pi) || nonempty (sender_email e)
                 = true).
    { destruct Hev as [Hd| ->]; [|apply orb_true_r].
      by rewrite bool_decide_eq_true_2. }
    rewrite Hb.
    repeat case_match;
      repeat first [apply names_without_absent|apply names_without_keeps_absent].
  - intros Hev. apply Hsnoc; [done|]. unfold filter_provided. cbv zeta.
    assert (Hb : bool_decide ("Resume/CV" ∈ dom pi)
                 || negb (bool_decide (attachments e = [])) = true).
    { destruct Hev as [Hd|Ha].
      - by rewrite bool_decide_eq_true_2.
      - rewrite (bool_decide_eq_false_2 _ Ha). apply orb_true_r. }
    rewrite Hb.
    repeat case_match;
      repeat first [apply names_without_absent|apply names_without_keeps_absent].
  - intros Hev. apply Hsnoc; [done|]. unfold filter_provided. cbv zeta.
    rewrite Hev.
    repeat case_match;
      repeat first [apply names_without_absent|apply names_without_keeps_absent].
  - intros [nm Hev]. apply Hsnoc; [done|]. unfold filter_provided. cbv zeta.
    rewrite Hev. apply names_without_absent.
Qed.

Lemma existsb_name_false n l :
  existsb (fun item => String.eqb (name item) n) l = false -> n ∉ names_of l.
Proof.
  intros He. rewrite elem_of_names. intros (r & -> & Hr).
  apply not_true_iff_false in He. apply He, existsb_exists.
  exists r. split; [by apply list_elem_of_In|apply String.eqb_refl].
Qed.

Lemma add_named_keeps acc matches :
  NoDup (names_of acc) /\ Forall (fun n => n ∈ required_names) (names_of acc) ->
  NoDup (names_of (add_named acc matches))
  /\ Forall (fun n => n ∈ required_names) (names_of (add_named acc matches)).
Proof.
  revert acc. induction matches as [|m matches IH]; intros acc [Hnd Hall]; [done|].
  cbn [add_named]. cbv zeta.
  destruct (bool_decide (Str.strip m ∈ required_names)) eqn:Hreq; [|by apply IH].
  destruct (existsb _ acc) eqn:Hex; [by apply IH|]. cbn [andb negb].
  apply IH. unfold names_of. rewrite map_app. cbn. split.
  - apply NoDup_app. split; [done|]. split.
    + intros x Hx Hx'. apply list_elem_of_singleton in Hx' as ->.
      by apply (existsb_name_false _ _ Hex).
    + apply NoDup_singleton.
  - apply Forall_app. split; [done|]. constructor; [|done].
    by apply bool_decide_eq_true in Hreq.
Qed.

(** The list that [analyze_resume] reads out of a reply of the judge
    that is no JSON names required fields only, and each of them once,
    whatever the reply says and however often it names a field. *)
Theorem fallback_names_required_fields_once text :
  NoDup (names_of (fallback_missing re_findall text))
  /\ Forall (fun n => n ∈ required_names) (names_of (fallback_missing re_findall text)).
Proof.
  unfold fallback_missing.
  destruct (Str.contains "missing" (Str.lower text)).
  - generalize fallback_patterns. intros patterns.
    assert (H : NoDup (names_of []) /\ Forall (fun n => n ∈ required_names) (names_of []))
      by (split; [apply NoDup_nil_2|constructor]).
    revert H. generalize (@nil requirement).
    induction patterns as [|p patterns IH]; intros acc H; [done|].
    cbn [foldl]. apply IH. by apply add_named_keeps.
  - split; [apply NoDup_nil_2|constructor].
Qed.

(** One entry that says that education is absent decides the scan: if
    the description of every entry is a string and that of some entry
    holds one of the negative phrases, the scan of [generate_response]
    finds education missing, whatever the other entries describe and in
    whatever order they come. *)
Theorem negative_entry_decides_the_scan (b : bool) (education_info : list entry) :
  Forall (fun edu : entry => forall x, edu !! "description" = Some x -> exists d, x = SStr d)
         education_info ->
  Exists (fun edu : entry => exists d, edu !! "description" = Some (SStr d)
                        /\ negative_description (Str.lower d) = true)
         education_info ->
  education_scan b education_info = Some true.
Proof.
  intros Hall Hex. revert b. induction Hex as [edu rest (d & Hd & Hneg)|edu rest Hex IH];
    intros b; apply Forall_cons in Hall as [Hedu Hall]; cbn [education_scan].
  - by rewrite Hd, Hneg.
  - destruct (edu !! "description") as [x|] eqn:Hx; [|by apply IH].
    destruct (Hedu x eq_refl) as [d ->]. cbv zeta.
    destruct (negative_description _); [done|].
    destruct (substantial_description _); by apply IH.
Qed.


Lemma elem_of_without r k l : r ∈ without k l <-> name r <> k /\ r ∈ l.
Proof. unfold without. apply (list_elem_of_filter (fun item => name item <> k)). Qed.

Lemma elem_of_filter_provided pi e ar l r :
  r ∈ filter_provided re_search pi e ar l
  <-> r ∈ l
      /\ (bool_decide ("Email Address" ∈ dom pi) || nonempty (sender_email e) = true ->
          name r <> "Email Address")
      /\ (bool_decide ("Resume/CV" ∈ dom pi) || negb (bool_decide (attachments e = []))
          = true -> name r <> "Resume/CV")
      /\ (work_experience_provided ar = true -> name r <> "Work Experience")
      /\ (is_Some (best_name re_search e ar) -> name r <> "Full Name").
Proof.
  unfold filter_provided. cbv zeta.
  destruct (bool_decide ("Email Address" ∈ dom pi) || nonempty (sender_email e));
    destruct (bool_decide ("Resume/CV" ∈ dom pi)
              || negb (bool_decide (attachments e = [])));
    destruct (work_experience_provided ar);
    destruct (best_name re_search e ar) as [nm|];
    rewrite ?elem_of_without; split; intros H; destruct_and?;
      repeat split; try done; auto using is_Some_None;
      try (intros; by eapply is_Some_None).
Qed.


Lemma seed_of_empty_result pi :
  seed_missing re_findall pi empty_result
  = filter (fun req => name req ∉ dom pi) required_information.
Proof.
  unfold seed_missing, empty_result. cbn [missing_information response_text].
  cbv zeta. cbn [from_option id]. by rewrite !bool_decide_eq_true_2.
Qed.

Lemma unfiltered_without_analysis pi e (r : requirement) :
  r ∈ required_information -> name r ∉ dom pi ->
  (nonempty (sender_email e) = true -> name r <> "Email Address") ->
  (attachments e <> [] -> name r <> "Resume/CV") ->
  (is_Some (best_name re_search e empty_result) -> name r <> "Full Name") ->
  r ∈ filter_provided re_search pi e empty_result
        (seed_missing re_findall pi empty_result).
Proof.
  intros Hr Hd He Ha Hn. apply elem_of_filter_provided.
  rewrite seed_of_empty_result. split; [by apply list_elem_of_filter|].
  split; [|split; [|split]].
  - intros Hc. apply orb_true_iff in Hc as [Hc|Hc]; [|by apply He].
    apply bool_decide_eq_true in Hc. intros Heq. by rewrite Heq in Hd.
  - intros Hc. apply orb_true_iff in Hc as [Hc|Hc].
    + apply bool_decide_eq_true in Hc. intros Heq. by rewrite Heq in Hd.
    + apply Ha. apply negb_true_iff in Hc. by apply bool_decide_eq_false in Hc.
  - cbn. discriminate.
  - exact Hn.
Qed.

Lemma evaluate_without_analysis pi e :
  has_first_word (sender_name e) = true ->
  exists v,
    (evaluate re_search re_findall pi e empty_result).2 = Some v
    /\ (complete v = true <->
        ("Full Name" ∈ dom pi \/ is_Some (best_name re_search e empty_result))
        /\ ("Email Address" ∈ dom pi \/ nonempty (sender_email e) = true)
        /\ "Phone Number" ∈ dom pi
        /\ ("Resume/CV" ∈ dom pi \/ attachments e <> [])
        /\ "Work Experience" ∈ dom pi
        /\ "Education" ∈ dom pi).
Proof.
  intros Hw. unfold evaluate.
  assert (Hg : greeting_name_defined e empty_result = true).
  { unfold greeting_name_defined. cbn. by rewrite Hw. }
  rewrite Hg. cbn [negb application_complete empty_result from_option id].
  cbv zeta.
  set (m5 := filter_provided re_search pi e empty_result
               (seed_missing re_findall pi empty_result)).
  assert (Hedu : "Education" ∉ dom pi -> "Education" ∈ names_of m5).
  { intros Hd. apply elem_of_names. exists education_requirement. split; [done|].
    apply unfiltered_without_analysis; try done; try (intros; discriminate).
    unfold required_information, education_requirement.
    repeat (first [by left|right]). }
  assert (Hm6 : exists b,
            education_missing (name_written re_search e empty_result pi) e empty_result
            = Some b
            /\ (if b && negb (bool_decide ("Education" ∈ names_of m5))
                then (m5 ++ [education_requirement])%list else m5) = m5).
  { unfold education_missing.
    destruct (decide ("Education" ∈ dom pi)) as [Hd|Hd].
    - rewrite bool_decide_eq_true_2
        by by apply (name_written_education re_search e empty_result pi).
      by exists false.
    - rewrite bool_decide_eq_false_2
        by (intros Hx; by apply (name_written_education re_search e empty_result pi) in Hx).
      cbn. eexists. split; [reflexivity|].
      rewrite (bool_decide_eq_true_2 _ (Hedu Hd)). by rewrite andb_false_r. }
  destruct Hm6 as (b & -> & ->).
  eexists. split; [reflexivity|]. cbn [complete snd].
  rewrite bool_decide_eq_true. split.
  - intros Hnil.
    assert (Hout : forall r, r ∉ m5) by (rewrite Hnil; intros r; apply not_elem_of_nil).
    assert (Hin : forall r, r ∈ required_information ->
              (nonempty (sender_email e) = true -> name r <> "Email Address") ->
              (attachments e <> [] -> name r <> "Resume/CV") ->
              (is_Some (best_name re_search e empty_result) -> name r <> "Full Name") ->
              name r ∈ dom pi).
    { intros r Hr He Ha Hn. destruct (decide (name r ∈ dom pi)) as [Hd|Hd]; [done|].
      destruct (Hout r). by apply unfiltered_without_analysis. }
    repeat split.
    + destruct (best_name re_search e empty_result) as [nm|] eqn:Hb; [right; eauto|].
      left. apply (Hin (Req "Full Name" "Applicant's complete name (first and last name)"));
        [unfold required_information; by left| | |]; try (intros; discriminate).
      intros Hs. by apply is_Some_None in Hs.
    + destruct (nonempty (sender_email e)) eqn:Hs; [by right|].
      left. apply (Hin (Req "Email Address" "Valid email address for communication"));
        [unfold required_information; repeat (first [by left|right])| | |];
        try (intros; discriminate).
    + apply (Hin (Req "Phone Number" "Valid phone number"));
        [unfold required_information; repeat (first [by left|right])| | |];
        try (intros; discriminate).
    + destruct (decide (attachments e = [])) as [Ha|Ha]; [|by right].
      left. apply (Hin (Req "Resume/CV" "Detailed resume or CV as an attachment"));
        [unfold required_information; repeat (first [by left|right])| | |];
        try (intros; discriminate). intros Hne. by destruct Hne.
    + apply (Hin (Req "Work Experience" "Any work experience"));
        [unfold required_information; repeat (first [by left|right])| | |];
        try (intros; discriminate).
    + apply (Hin education_requirement);
        [unfold required_information, education_requirement;
         repeat (first [by left|right])| | |];
        try (intros; discriminate).
  - intros (Hname & Hemail & Hphone & Hresume & Hwork & Heducation).
    apply elem_of_nil_inv. intros r Hr.
    apply elem_of_filter_provided in Hr as (Hseed & He & Ha & _ & Hn).
    rewrite seed_of_empty_result in Hseed.
    apply list_elem_of_filter in Hseed as [Hd Hreq].
    unfold required_information in Hreq.
    repeat (apply elem_of_cons in Hreq as [->|Hreq]); cbn [name] in *.
    + destruct Hname as [Hk|Hk]; [done|]. by apply (Hn Hk).
    + destruct Hemail as [Hk|Hk]; [done|]. apply He; [|done].
      rewrite Hk. apply orb_true_r.
    + done.
    + destruct Hresume as [Hk|Hk]; [done|]. apply Ha; [|done].
      rewrite (bool_decide_eq_false_2 _ Hk). apply orb_true_r.
    + done.
    + done.
    + by apply elem_of_nil in Hreq.
Qed.

(** Without a usable analysis the field map and the mail decide: when
    the analysis is the empty dictionary (the judge's call failed) and
    the sender name has a word, [generate_response] returns a result
    exactly when the model writes the reply (the empty dictionary
    otherwise); the result carries the stripped text, and its flag says
    that the application is complete exactly when Phone Number, Work
    Experience and Education are keys of the field map of the thread,
    Email Address is a key or the sender has an address, Resume/CV is a
    key or the mail has an attachment, and Full Name is a key or the
    sign-off gives a name.  A word of education in the body does not
    stand in for the key. *)
Theorem verdict_without_analysis o e w :
  has_first_word (sender_name e) = true ->
  exists b,
    (generate_response re_search re_findall o e empty_result w).2
    = (fun text => Response (Str.strip text) b) <$> reply o
    /\ (b = true <->
        ("Full Name" ∈ dom (get_provided_information (cm w) (thread_id e))
         \/ is_Some (best_name re_search e empty_result))
        /\ ("Email Address" ∈ dom (get_provided_information (cm w) (thread_id e))
            \/ nonempty (sender_email e) = true)
        /\ "Phone Number" ∈ dom (get_provided_information (cm w) (thread_id e))
        /\ ("Resume/CV" ∈ dom (get_provided_information (cm w) (thread_id e))
            \/ attachments e <> [])
        /\ "Work Experience" ∈ dom (get_provided_information (cm w) (thread_id e))
        /\ "Education" ∈ dom (get_provided_information (cm w) (thread_id e))).
Proof.
  intros Hw.
  destruct (evaluate_without_analysis
              (get_provided_information (cm w) (thread_id e)) e Hw) as (v & Hv & Hiff).
  exists (complete v). split; [|exact Hiff].
  unfold generate_response, evaluate_thread.
  destruct (evaluate re_search re_findall _ e empty_result) as [pi' v'].
  cbn [snd] in Hv. subst v'.
  destruct (reply o) as [text|]; [|done].
  by destruct (send_email_response _ _ _ _).
Qed.

End MissingFacts.

(** The properties of triage, handling and the missing list on the
    sample inputs *)

Lemma sample_mail_not_from_hr :
  Str.contains HR_EMAIL (sender_email Sample.mail) = false.
Proof. vm_compute. reflexivity. Qed.

Lemma strong_subject_is_an_application_witness :
  Str.contains HR_EMAIL (sender_email Sample.mail) = false
  /\ Triage.is_job_application (Triage.classify_email Sample.mail) = true.
Proof.
  split; [exact sample_mail_not_from_hr|].
  exact (strong_subject_is_an_application Sample.mail sample_mail_not_from_hr eq_refl).
Defined.

Lemma body_alone_is_no_application_witness :
  existsb (fun k => Str.contains k (Str.lower (subject Cases.lunch_mail)))
          Triage.subject_keywords = false
  /\ Triage.is_job_application (Triage.classify_email Cases.lunch_mail) = false.
Proof.
  split; [reflexivity|].
  exact (body_alone_is_no_application Cases.lunch_mail eq_refl eq_refl).
Defined.

Lemma lunch_mail_is_no_application :
  Triage.is_job_application (Triage.classify_email Cases.lunch_mail) = false.
Proof. vm_compute. reflexivity. Qed.

Lemma mail_that_is_no_application_gets_no_reply_witness :
  Triage.is_job_application (Triage.classify_email Cases.lunch_mail) = false
  /\ Bot.sent (Bot.mbox (Bot.process_email Sample.no_match Sample.no_matches
                           Sample.not_json Sample.send_fails empty_result
                           Cases.lunch_mail Sample.world_before))
     = Bot.sent (Bot.mbox Sample.world_before).
Proof.
  split; [exact lunch_mail_is_no_application|].
  exact (proj1 (mail_that_is_no_application_gets_no_reply
                  Sample.no_match Sample.no_matches Sample.not_json
                  Sample.send_fails empty_result Cases.lunch_mail
                  Sample.world_before lunch_mail_is_no_application)).
Defined.

Lemma sample_phone_verdict :
  (Screening.evaluate Sample.no_match Sample.no_matches Sample.six_fields Sample.mail
     Cases.judge_lists_phone).2
  = Some (Verdict [Cases.phone_item] false).
Proof. vm_compute. reflexivity. Qed.

Lemma sample_phone_named :
  "Phone Number"
  ∈ Screening.names_of (default [] (missing_information Cases.judge_lists_phone)).
Proof. cbn. by left. Qed.

Lemma judge_names_stay_asked_witness :
  is_Some (Sample.six_fields !! "Phone Number")
  /\ "Phone Number"
     ∈ Screening.names_of (default [] (missing_information Cases.judge_lists_phone))
  /\ "Phone Number" ∈ Screening.names_of (missing (Verdict [Cases.phone_item] false)).
Proof.
  split; [vm_compute; eexists; reflexivity|].
  split; [exact sample_phone_named|].
  refine (judge_names_stay_asked Sample.no_match Sample.no_matches
            Sample.six_fields Sample.mail Cases.judge_lists_phone
            (Verdict [Cases.phone_item] false) "Phone Number"
            eq_refl sample_phone_verdict sample_phone_named _ _ _ _); discriminate.
Defined.

Lemma sample_sender_has_address :
  "Email Address" ∈ dom Sample.first_mail_info
  \/ Screening.nonempty (sender_email Sample.mail) = true.
Proof. by right. Qed.

Lemma sample_bare_verdict :
  (Screening.evaluate Sample.no_match Sample.no_matches (∅ : field_map) Sample.mail
     empty_result).2
  = Some (Verdict [ Req "Full Name" "Applicant's complete name (first and last name)";
                    Req "Phone Number" "Valid phone number";
                    Req "Resume/CV" "Detailed resume or CV as an attachment";
                    Req "Work Experience" "Any work experience";
                    Req "Education" "Highest level of education and field of study" ]
                  false).
Proof. vm_compute. reflexivity. Qed.

Lemma mail_evidence_is_not_asked_for_witness :
  Screening.nonempty (sender_email Sample.mail) = true
  /\ "Email Address"
     ∉ Screening.names_of
         [ Req "Full Name" "Applicant's complete name (first and last name)";
           Req "Phone Number" "Valid phone number";
           Req "Resume/CV" "Detailed resume or CV as an attachment";
           Req "Work Experience" "Any work experience";
           Req "Education" "Highest level of education and field of study" ].
Proof.
  split; [reflexivity|].
  exact (proj1 (mail_evidence_is_not_asked_for Sample.no_match Sample.no_matches
                  ∅ Sample.mail empty_result _ eq_refl sample_bare_verdict)
               (or_intror eq_refl)).
Defined.

Lemma mixed_education_strings :
  Forall (fun edu : entry =>
            forall x, edu !! "description" = Some x -> exists d, x = SStr d)
         Cases.mixed_education.
Proof.
  unfold Cases.mixed_education, Screening.description_entry.
  repeat constructor; intros x [= <-]%lookup_singleton_Some%proj2; eauto.
Qed.

Lemma mixed_education_negative :
  Exists (fun edu : entry =>
            exists d, edu !! "description" = Some (SStr d)
                      /\ Screening.negative_description (Str.lower d) = true)
         Cases.mixed_education.
Proof.
  unfold Cases.mixed_education. apply Exists_cons_tl, Exists_cons_hd.
  eexists. split; [apply lookup_singleton_eq|]. vm_compute. reflexivity.
Qed.

Lemma negative_entry_decides_the_scan_witness :
  Screening.substantial_description (Str.lower "Master of Science in Physics, 2018")
  = true
  /\ Screening.education_scan true Cases.mixed_education = Some true.
Proof.
  split; [vm_compute; reflexivity|].
  exact (negative_entry_decides_the_scan true Cases.mixed_education
           mixed_education_strings mixed_education_negative).
Defined.


Lemma verdict_without_analysis_witness :
  Screening.has_first_word (sender_name Sample.mail) = true
  /\ exists b,
       (Bot.generate_response Sample.no_match Sample.no_matches Sample.send_fails
          Sample.mail empty_result Sample.world_before).2
       = (fun text => Bot.Response (Str.strip text) b) <$> Bot.reply Sample.send_fails
       /\ (b = true <->
           ("Full Name"
            ∈ dom (Ledger.get_provided_information (Bot.cm Sample.world_before)
                     (thread_id Sample.mail))
            \/ is_Some (Screening.best_name Sample.no_match Sample.mail empty_result))
           /\ ("Email Address"
               ∈ dom (Ledger.get_provided_information (Bot.cm Sample.world_before)
                        (thread_id Sample.mail))
               \/ Screening.nonempty (sender_email Sample.mail) = true)
           /\ "Phone Number"
              ∈ dom (Ledger.get_provided_information (Bot.cm Sample.world_before)
                       (thread_id Sample.mail))
           /\ ("Resume/CV"
               ∈ dom (Ledger.get_provided_information (Bot.cm Sample.world_before)
                        (thread_id Sample.mail))
               \/ attachments Sample.mail <> [])
           /\ "Work Experience"
              ∈ dom (Ledger.get_provided_information (Bot.cm Sample.world_before)
                       (thread_id Sample.mail))
           /\ "Education"
              ∈ dom (Ledger.get_provided_information (Bot.cm Sample.world_before)
                       (thread_id Sample.mail))).
Proof.
  split; [reflexivity|].
  exact (verdict_without_analysis Sample.no_match Sample.no_matches
           Sample.send_fails Sample.mail Sample.world_before eq_refl).
Defined.

(** ** The name for the background check, and a reply without markup *)

Section BackgroundFacts.

Import Screening Background Extractor.

Variable re_search : bool -> string -> string -> option string.
Variable re_findall : string -> string -> list string.
Variable json_loads : string -> loads.

Lemma provided_full_name e ar b :
  provided_info_of re_search e ar b !! "Full Name"
  = VStr <$> (ei ← extracted ar; pi ← personal_information ei;
              v ← pi !! "name"; truthy_str v).
Proof.
  unfold provided_info_of. cbv zeta beta.
  rewrite !lookup_put_ne by done. rewrite lookup_put_eq, lookup_empty.
  by case_match.
Qed.

(** A name key in the extraction shadows the sender name: when the body
    has no sign-off name and the extraction of the resume has a ['name']
    entry, the name for the background check is that entry, empty or
    not; so with an empty entry no background check runs, whatever the
    sender name of the mail is. *)
Theorem extracted_name_shadows_sender e ar b ei pinfo n :
  name_in_body re_search e = "" ->
  extracted ar = Some ei ->
  personal_information ei = Some pinfo ->
  pinfo !! "name" = Some n ->
  applicant_name re_search e (provided_info_of re_search e ar b) ar = VStr n
  /\ background_check_runs re_search e (provided_info_of re_search e ar b) ar
     = nonempty n.
Proof.
  intros Hb Hex Hpi Hn.
  assert (Ha : applicant_name re_search e (provided_info_of re_search e ar b) ar
               = VStr n).
  { unfold applicant_name. rewrite Hb. cbn [nonempty String.eqb negb].
    rewrite provided_full_name, Hex. cbn. rewrite Hpi. cbn. rewrite Hn. cbn.
    unfold truthy_str. by destruct (nonempty n). }
  split; [exact Ha|]. unfold background_check_runs. by rewrite Ha.
Qed.




End BackgroundFacts.

Lemma blank_name_entry :
  ({[ "name" := "" ]} : gmap string string) !! "name" = Some "".
Proof. reflexivity. Qed.

Lemma extracted_name_shadows_sender_witness :
  sender_name Sample.mail = "Ann Lee"
  /\ Background.background_check_runs Sample.no_match Sample.mail
       (Screening.provided_info_of Sample.no_match Sample.mail
          (Analysis (Some (Extracted (Some {[ "name" := "" ]}) None None None))
                    None None None) false)
       (Analysis (Some (Extracted (Some {[ "name" := "" ]}) None None None))
                 None None None)
     = Screening.nonempty "".
Proof.
  split; [reflexivity|].
  exact (proj2 (extracted_name_shadows_sender Sample.no_match Sample.mail
                  (Analysis (Some (Extracted (Some {[ "name" := "" ]}) None None None))
                            None None None)
                  false _ _ "" eq_refl eq_refl eq_refl blank_name_entry)).
Defined.


(** ** Reading a message *)

Section MailFacts.

Import Mail.

Variable decode : string -> option string.

Lemma prefix_char (c a : ascii) (r : string) :
  String.prefix (String c "") (String a r) = if ascii_dec c a then true else false.
Proof.
  change (String.prefix (String c "") (String a r))
    with (if ascii_dec c a then String.prefix "" r else false).
  destruct (ascii_dec c a); [by destruct r|done].
Qed.

Lemma contains_app_r (sep a b : string) :
  Str.contains sep b = true -> Str.contains sep (a ++ b) = true.
Proof.
  intros Hb. induction a as [|x a IH]; [exact Hb|].
  change (String x a ++ b) with (String x (a ++ b)).
  cbn [Str.contains]. rewrite IH. apply orb_true_r.
Qed.

Lemma contains_char_here (c : ascii) (rest : string) :
  Str.contains (String c "") (String c rest) = true.
Proof.
  cbn [Str.contains]. rewrite prefix_char.
  by destruct (ascii_dec c c).
Qed.

Lemma contains_char_cons (c a : ascii) (t : string) :
  Str.contains (String c "") (String a t) = false ->
  c <> a /\ Str.contains (String c "") t = false.
Proof.
  cbn [Str.contains]. rewrite prefix_char. intros H.
  apply orb_false_iff in H as [Hp Hc]. split; [|done].
  by destruct (ascii_dec c a).
Qed.

Lemma before_first_char (c : ascii) (t rest : string) :
  Str.contains (String c "") t = false ->
  Str.before_first (String c "") (t ++ String c rest) = t.
Proof.
  induction t as [|a t IH]; intros Hn.
  - change ("" ++ String c rest) with (String c rest).
    cbn [Str.before_first]. rewrite prefix_char. by destruct (ascii_dec c c).
  - apply contains_char_cons in Hn as [Hne Hn].
    change (String a t ++ String c rest) with (String a (t ++ String c rest)).
    cbn [Str.before_first]. rewrite prefix_char.
    destruct (ascii_dec c a); [done|]. by rewrite IH.
Qed.

Lemma substring_all (s : string) : String.substring 0 (String.length s) s = s.
Proof. induction s as [|a s IH]; cbn; [done|by rewrite IH]. Qed.

Lemma after_first_char (c : ascii) (t rest : string) :
  Str.contains (String c "") t = false ->
  Str.after_first (String c "") (t ++ String c rest) = rest.
Proof.
  induction t as [|a t IH]; intros Hn.
  - change ("" ++ String c rest) with (String c rest).
    cbn [Str.after_first]. rewrite prefix_char.
    destruct (ascii_dec c c); [|done].
    cbn [String.length Nat.sub String.substring].
    rewrite Nat.sub_0_r. apply substring_all.
  - apply contains_char_cons in Hn as [Hne Hn].
    change (String a t ++ String c rest) with (String a (t ++ String c rest)).
    cbn [Str.after_first]. rewrite prefix_char.
    destruct (ascii_dec c a); [done|]. by apply IH.
Qed.

Lemma before_first_both (c1 c2 : ascii) (t rest : string) :
  Str.contains (String c1 "") t = false ->
  Str.contains (String c2 "") t = false ->
  Str.before_first (String c2 "")
    (Str.before_first (String c1 "") (t ++ String c2 rest)) = t.
Proof.
  induction t as [|a t IH]; intros H1 H2.
  - change ("" ++ String c2 rest) with (String c2 rest).
    cbn [Str.before_first]. rewrite prefix_char.
    destruct (ascii_dec c1 c2) as [->|Hne].
    + by destruct rest.
    + cbn [Str.before_first]. rewrite prefix_char. by destruct (ascii_dec c2 c2).
  - apply contains_char_cons in H1 as [Hn1 H1].
    apply contains_char_cons in H2 as [Hn2 H2].
    change (String a t ++ String c2 rest) with (String a (t ++ String c2 rest)).
    cbn [Str.before_first]. rewrite prefix_char.
    destruct (ascii_dec c1 a); [done|].
    cbn [Str.before_first]. rewrite prefix_char.
    destruct (ascii_dec c2 a); [done|]. by rewrite IH.
Qed.

(** The sender is read out of the usual form of the From header: for a
    header [name <address> ...] whose name holds no "<" and whose
    address holds neither "<" nor ">", the sender name is the stripped
    name and the sender address the stripped address, whatever follows
    the ">". *)
Theorem sender_is_read_from_angle_form (name_part address rest : string) :
  Str.contains "<" name_part = false ->
  Str.contains "<" address = false ->
  Str.contains ">" address = false ->
  parse_sender (name_part ++ "<" ++ address ++ ">" ++ rest)
  = (Str.strip name_part, Str.strip address).
Proof.
  intros Hn Ha1 Ha2. unfold parse_sender.
  change (name_part ++ "<" ++ address ++ ">" ++ rest)
    with (name_part ++ String "<" (address ++ String ">" rest)).
  assert (H1 : Str.contains "<" (name_part ++ String "<" (address ++ String ">" rest))
               = true) by apply contains_app_r, contains_char_here.
  assert (H2 : Str.contains ">" (name_part ++ String "<" (address ++ String ">" rest))
               = true).
  { apply contains_app_r.
    change (String "<" (address ++ String ">" rest))
      with ("<" ++ address ++ String ">" rest).
    rewrite contains_app_r; [done|]. apply contains_app_r, contains_char_here. }
  rewrite H1, H2. cbn [andb]. unfold Str.split_second.
  rewrite (before_first_char "<" name_part _ Hn).
  rewrite (after_first_char "<" name_part _ Hn).
  by rewrite (before_first_both "<" ">" address rest Ha1 Ha2).
Qed.

Lemma attachments_of_top_level (ps : list part) :
  attachments_of (top_level <$> ps) = attachments_of ps.
Proof.
  induction ps as [|p ps IH]; [done|].
  rewrite fmap_cons. cbn [attachments_of].
  destruct p as [m b f sub]. cbn. rewrite IH. done.
Qed.

(** Attachments are read at the top level only: the attachments that
    [extract_email_data] lists are those of the message with every
    nested part cut off, so a file inside a nested multipart is no
    attachment of the mail. *)
Theorem nested_files_are_no_attachments (msg : gmail_message) e e' :
  extract_email_data decode msg = Some e ->
  extract_email_data decode
    (GmailMessage (id msg) (threadId msg)
       (Payload (headers (message_payload msg))
                (top_level <$> payload_parts (message_payload msg))
                (payload_body (message_payload msg)))) = Some e' ->
  attachments e = attachments e'.
Proof.
  unfold extract_email_data. cbn [message_payload payload_parts headers payload_body].
  rewrite attachments_of_top_level.
  destruct (attachments_of _) as [found|]; cbn.
  - destruct (first_body decode (payload_parts _)) as [b0|]; [|done]. cbn.
    destruct (if Screening.nonempty b0 then _ else _) as [b|]; [|done]. cbn.
    intros [= <-].
    destruct (first_body decode (top_level <$> _)) as [b0'|]; [|done]. cbn.
    destruct (if Screening.nonempty b0' then _ else _) as [b'|]; [|done]. cbn.
    by intros [= <-].
  - destruct (first_body decode (payload_parts _)) as [b0|]; [|done]. cbn.
    by destruct (if Screening.nonempty b0 then _ else _).
Qed.

End MailFacts.

Section UnknownSender.

Import Mail.

Variable decode : string -> option string.
Variable re_search : bool -> string -> string -> option string.

(** A From header without angle brackets makes "Unknown" the applicant:
    when the header holds no "<", [extract_email_data] gives the sender
    name "Unknown" and the whole header as the address, and the fields
    that [process_email] merges into the ledger have "Unknown" as the
    Full Name. *)
Theorem bare_sender_is_recorded_as_unknown (msg : gmail_message) e :
  Str.contains "<"
    (next_header "from" "Unknown Sender" (headers (message_payload msg))) = false ->
  extract_email_data decode msg = Some e ->
  sender_name e = "Unknown"
  /\ sender_email e
     = next_header "from" "Unknown Sender" (headers (message_payload msg))
  /\ Screening.basic_info re_search e !! "Full Name" = Some (VStr "Unknown").
Proof.
  intros Hb. unfold extract_email_data, parse_sender. rewrite Hb. cbn [andb].
  destruct (first_body decode _) as [b0|]; [|done]. cbn.
  destruct (if Screening.nonempty b0 then _ else _) as [b|]; [|done]. cbn.
  destruct (attachments_of _) as [found|]; [|done]. cbn.
  intros [= <-]. repeat split.
  unfold Screening.basic_info. cbv zeta.
  rewrite !lookup_put_ne by done. by rewrite lookup_put_eq.
Qed.

End UnknownSender.

(** ** The round over the unread mail *)

Section InboxFacts.

Import Bot Inbox.

Variable re_search : bool -> string -> string -> option string.
Variable re_findall : string -> string -> list string.
Variable json_loads : string -> loads.

Lemma check_messages_processed messages s :
  Forall (fun m : string * handling => m.1 ∈ processed_emails s) messages ->
  check_messages re_search re_findall json_loads messages s = s.
Proof.
  induction 1 as [|[message_id h] messages Hm _ IH]; [done|].
  cbn [check_messages]. cbn [fst] in Hm.
  by rewrite (bool_decide_eq_true_2 _ Hm).
Qed.

(** A mail is handled once at most: after the round has fetched a
    message, its id is on the list of processed mail, whether
    [process_email] could handle it, mark it as read, or not; and a later
    round leaves everything as it is for that message.  When
    [extract_email_data] gave the empty dictionary, nothing was done for
    the mail at all. *)
Theorem mail_is_handled_once message_id h h' s :
  fetch h <> None ->
  message_id
  ∈ processed_emails
      (check_messages re_search re_findall json_loads [(message_id, h)] s)
  /\ check_messages re_search re_findall json_loads [(message_id, h')]
       (check_messages re_search re_findall json_loads [(message_id, h)] s)
     = check_messages re_search re_findall json_loads [(message_id, h)] s
  /\ (fetch h = Some None ->
      the_world (check_messages re_search re_findall json_loads [(message_id, h)] s)
      = the_world s).
Proof.
  intros Hf.
  assert (Hin : message_id
                ∈ processed_emails
                    (check_messages re_search re_findall json_loads
                       [(message_id, h)] s)).
  { cbn [check_messages]. case_bool_decide as Hp; [done|].
    destruct (fetch h) as [e|]; [|done].
    destruct (dump_ok h); cbn; set_solver. }
  split; [exact Hin|]. split.
  - apply check_messages_processed. by constructor.
  - intros He. cbn [check_messages]. case_bool_decide; [done|].
    rewrite He. by destruct (dump_ok h).
Qed.

(** Handled mail of the HR address starves the rest: while the query
    for unread mail of the HR address returns messages and all of them
    are on the list of processed mail, a round of [check_emails] does
    nothing, whatever other mail is unread. *)
Theorem processed_hr_mail_starves_the_rest hr_messages messages s :
  hr_messages <> [] ->
  Forall (fun m : string * handling => m.1 ∈ processed_emails s) hr_messages ->
  check_emails re_search re_findall json_loads (Answers hr_messages messages) s = s.
Proof.
  intros Hne Hall. unfold check_emails, get_unread_emails.
  destruct hr_messages; [done|]. by apply check_messages_processed.
Qed.

End InboxFacts.

(** The properties of the mail reader and of the round on the sample
    inputs *)

Lemma sender_is_read_from_angle_form_witness :
  Str.contains "<" "Ann Lee " = false
  /\ Mail.parse_sender ("Ann Lee " ++ "<" ++ "ann@example.org" ++ ">" ++ "")
     = (Str.strip "Ann Lee ", Str.strip "ann@example.org").
Proof.
  split; [reflexivity|].
  exact (sender_is_read_from_angle_form "Ann Lee " "ann@example.org" ""
           eq_refl eq_refl eq_refl).
Defined.

Lemma nested_message_read :
  Mail.extract_email_data Cases.as_written Cases.nested_message
  = Some (Email "Ann Lee" "ann@example.org" "Application for Editor"
                "Please find my resume attached." [] "t4" "m4").
Proof. vm_compute. reflexivity. Qed.

Lemma nested_message_read_at_top_level :
  Mail.extract_email_data Cases.as_written
    (Mail.GmailMessage (Mail.id Cases.nested_message)
       (Mail.threadId Cases.nested_message)
       (Mail.Payload (Mail.headers (Mail.message_payload Cases.nested_message))
          (Mail.top_level
             <$> Mail.payload_parts (Mail.message_payload Cases.nested_message))
          (Mail.payload_body (Mail.message_payload Cases.nested_message))))
  = Some (Email "Ann Lee" "ann@example.org" "Application for Editor" "" [] "t4" "m4").
Proof. vm_compute. reflexivity. Qed.

Lemma nested_files_are_no_attachments_witness :
  Mail.extract_email_data Cases.as_written Cases.nested_message
  = Some (Email "Ann Lee" "ann@example.org" "Application for Editor"
                "Please find my resume attached." [] "t4" "m4")
  /\ attachments (Email "Ann Lee" "ann@example.org" "Application for Editor"
                        "Please find my resume attached." [] "t4" "m4")
     = attachments (Email "Ann Lee" "ann@example.org" "Application for Editor" ""
                          [] "t4" "m4").
Proof.
  split; [exact nested_message_read|].
  exact (nested_files_are_no_attachments Cases.as_written Cases.nested_message _ _
           nested_message_read nested_message_read_at_top_level).
Defined.

Lemma bare_message_read :
  Mail.extract_email_data Cases.as_written Cases.bare_message
  = Some (Email "Unknown" "ann@example.org" "No Subject"
                "Hello, I would like to work with you." [] "t5" "m5").
Proof. vm_compute. reflexivity. Qed.

Lemma bare_sender_is_recorded_as_unknown_witness :
  Str.contains "<"
    (Mail.next_header "from" "Unknown Sender"
       (Mail.headers (Mail.message_payload Cases.bare_message))) = false
  /\ Screening.basic_info Sample.no_match
       (Email "Unknown" "ann@example.org" "No Subject"
              "Hello, I would like to work with you." [] "t5" "m5") !! "Full Name"
     = Some (VStr "Unknown").
Proof.
  split; [reflexivity|].
  exact (proj2 (proj2 (bare_sender_is_recorded_as_unknown Cases.as_written
                         Sample.no_match Cases.bare_message _ eq_refl
                         bare_message_read))).
Defined.

Lemma unreadable_mail_fetched : Inbox.fetch Cases.unreadable_mail <> None.
Proof. discriminate. Qed.

Lemma mail_is_handled_once_witness :
  Inbox.fetch Cases.unreadable_mail <> None
  /\ "m9"
     ∈ Inbox.processed_emails
         (Inbox.check_messages Sample.no_match Sample.no_matches Sample.not_json
            [("m9", Cases.unreadable_mail)] Cases.hr_mail_handled)
  /\ Inbox.check_messages Sample.no_match Sample.no_matches Sample.not_json
       [("m9", Cases.applicant_mail)]
       (Inbox.check_messages Sample.no_match Sample.no_matches Sample.not_json
          [("m9", Cases.unreadable_mail)] Cases.hr_mail_handled)
     = Inbox.check_messages Sample.no_match Sample.no_matches Sample.not_json
         [("m9", Cases.unreadable_mail)] Cases.hr_mail_handled.
Proof.
  split; [exact unreadable_mail_fetched|].
  destruct (mail_is_handled_once Sample.no_match Sample.no_matches Sample.not_json
              "m9" Cases.unreadable_mail Cases.applicant_mail Cases.hr_mail_handled
              unreadable_mail_fetched) as (H1 & H2 & _).
  exact (conj H1 H2).
Defined.

Lemma hr_mail_on_the_list :
  Forall (fun m : string * Inbox.handling =>
            m.1 ∈ Inbox.processed_emails Cases.hr_mail_handled)
         [("m0", Cases.unreadable_mail)].
Proof. constructor; [|constructor]. cbn. set_solver. Qed.

Lemma hr_list_not_empty : [("m0", Cases.unreadable_mail)] <> [].
Proof. discriminate. Qed.

Lemma processed_hr_mail_starves_the_rest_witness :
  [("m0", Cases.unreadable_mail)] <> []
  /\ Inbox.check_emails Sample.no_match Sample.no_matches Sample.not_json
       (Inbox.Answers [("m0", Cases.unreadable_mail)]
                      [("m0", Cases.unreadable_mail); ("m1", Cases.applicant_mail)])
       Cases.hr_mail_handled
     = Cases.hr_mail_handled.
Proof.
  split; [exact hr_list_not_empty|].
  exact (processed_hr_mail_starves_the_rest Sample.no_match Sample.no_matches
           Sample.not_json _ _ Cases.hr_mail_handled hr_list_not_empty
           hr_mail_on_the_list).
Defined.
